(** * ISO 15693 air interface and iCLASS tag emulation (proxmark3 firmware)

    A shallow embedding of [armsrc/iso15693.c] and [armsrc/iclass.c]:
    the reader-direction encoders and decoder, the tag-direction ASK and
    FSK decoders, [rotateCSN] and the command dispatcher of
    [doIClassSimulation], with the properties checked against them. *)

From Stdlib Require Import ZArith List Bool Lia.
Import ListNotations.
Local Open Scope Z_scope.

(** ** Machine integers and byte buffers *)

(** [uint8_t] and [uint16_t] values are integers with the wrap-around of
    an assignment written out.  The [int] counters of the decoders are
    plain integers: those of the reader-direction decoder stay far below
    2^31 (see [Reader15693Facts.reader_counters_small]), those of the
    tag-direction decoder grow with the number of samples at most, which
    the timeout of its caller limits. *)
Definition u8 (x : Z) : Z := x mod 256.
Definition u16 (x : Z) : Z := x mod 65536.

Definition is_byte (b : Z) : Prop := 0 <= b < 256.

(** Memory seen through a [uint8_t *]: the cell at every index.  Cells at
    indices beyond the size the owner allocated are the memory that
    follows the buffer. *)
Definition buffer := Z -> Z.

Definition store (m : buffer) (i v : Z) : buffer :=
  fun j => if j =? i then v else m j.

(** [memcpy] out of a buffer: [n] cells from index [base] on. *)
Definition load (m : buffer) (base : Z) (n : nat) : list Z :=
  map (fun k => m (base + Z.of_nat k)) (seq 0 n).

(** [memcpy] into a buffer. *)
Fixpoint store_list (m : buffer) (base : Z) (l : list Z) : buffer :=
  match l with
  | [] => m
  | v :: r => store_list (store m base v) (base + 1) r
  end.

(** Equality test on byte strings. *)
Fixpoint list_eqb (a b : list Z) : bool :=
  match a, b with
  | [], [] => true
  | x :: a, y :: b => (x =? y) && list_eqb a b
  | _, _ => false
  end.

(** ** The transmit buffer [ToSend] *)

Module ToSendBuffer.

(** The bytes [ToSend[0 .. ToSendMax]] written so far and the bit cursor
    into the last of them. *)
Record t := mk { ToSend : list Z; ToSendBit : Z }.

(** Modelled from the spec: [ToSendReset] and [ToSendStuffBit] are defined
    outside the given sources.  [ToSendReset] empties the buffer
    ([ToSendMax = -1]) with the bit cursor past the end of a byte;
    [ToSendStuffBit] opens a new zero byte when the cursor is past bit 7
    and writes its bit at the cursor, most significant bit first, the
    order in which [TransmitTo15693Tag] shifts bytes out. *)
Definition ToSendReset : t := mk [] 8.

Definition or_last (l : list Z) (v : Z) : list Z :=
  match rev l with
  | [] => []
  | x :: r => rev (Z.lor x v :: r)
  end.

Definition ToSendStuffBit (b : Z) (ts : t) : t :=
  let ts := if ToSendBit ts >=? 8 then mk (ToSend ts ++ [0]) 0 else ts in
  let ts := if b =? 0 then ts
            else mk (or_last (ToSend ts) (Z.shiftl 1 (7 - ToSendBit ts)))
                    (ToSendBit ts) in
  mk (ToSend ts) (ToSendBit ts + 1).

(** [ToSend[++ToSendMax] = v;] *)
Definition put (v : Z) (ts : t) : t := mk (ToSend ts ++ [v]) (ToSendBit ts).

End ToSendBuffer.

Module Reader15693.

Import ToSendBuffer.

(** ** Reader-direction encoders *)

(** The [switch (these)] of [CodeIso15693AsReader]. *)
Definition one_of_four (these : Z) : Z :=
  match these with
  | 0 => 0x40
  | 1 => 0x10
  | 2 => 0x04
  | 3 => 0x01
  | _ => 0
  end.

Definition CodeIso15693AsReader (cmd : list Z) : list Z :=
  let ts := ToSendReset in
  (* SOF for 1of4 *)
  let ts := put 0x84 ts in
  (* data *)
  let ts :=
    fold_left (fun ts b =>
      fold_left (fun ts j => put (one_of_four (Z.land (Z.shiftr b j) 0x03)) ts)
                [0; 2; 4; 6] ts) cmd ts in
  (* EOF *)
  let ts := put 0x20 ts in
  ToSend ts.

(** The inner loop [for (int j = 0; j <= 255; j++)] of
    [CodeIso15693AsReader256]. *)
Definition pulse_position (b : Z) (ts : ToSendBuffer.t) : ToSendBuffer.t :=
  fold_left (fun ts j =>
               if b =? j
               then ToSendStuffBit 1 (ToSendStuffBit 0 ts)
               else ToSendStuffBit 0 (ToSendStuffBit 0 ts))
            (map Z.of_nat (seq 0 256)) ts.

Definition CodeIso15693AsReader256 (cmd : list Z) : list Z :=
  let ts := ToSendReset in
  (* SOF for 1of256 *)
  let ts := put 0x81 ts in
  (* data *)
  let ts := fold_left (fun ts b => pulse_position b ts) cmd ts in
  (* EOF *)
  let ts := put 0x20 ts in
  ToSend ts.

(** ** From [ToSend] to the samples of the receiving side

    [TransmitTo15693Tag] shifts every byte out most significant bit first
    and holds each bit for two 16-bit words of the 3.39 MHz SSP clock, that
    is for 32 clock ticks; [Handle15693SampleFromReader] is called once per
    8 such ticks (four times per bit).  A set bit is a modulation pause,
    which the receiver samples as 0; the unmodulated carrier is sampled as
    1.  A frame is preceded by unmodulated carrier. *)
Definition ToSend_bits (bytes : list Z) : list Z :=
  flat_map (fun b => map (fun i => Z.land (Z.shiftr b i) 1) [7; 6; 5; 4; 3; 2; 1; 0])
           bytes.

Definition carrier (bit : Z) : list Z :=
  repeat (if bit =? 0 then 1 else 0) 4.

Definition air (idle : nat) (bytes : list Z) : list Z :=
  repeat 1 (S idle) ++ flat_map carrier (ToSend_bits bytes).

(** ** Reader-direction decoder *)

Inductive ReaderState :=
| STATE_READER_UNSYNCD
| STATE_READER_AWAIT_1ST_FALLING_EDGE_OF_SOF
| STATE_READER_AWAIT_1ST_RISING_EDGE_OF_SOF
| STATE_READER_AWAIT_2ND_FALLING_EDGE_OF_SOF
| STATE_READER_AWAIT_2ND_RISING_EDGE_OF_SOF
| STATE_READER_AWAIT_END_OF_SOF_1_OUT_OF_4
| STATE_READER_RECEIVE_DATA_1_OUT_OF_4
| STATE_READER_RECEIVE_DATA_1_OUT_OF_256.

Inductive ReaderCoding := CODING_1_OUT_OF_4 | CODING_1_OUT_OF_256.

Record DecodeReader := mkDecodeReader {
  state : ReaderState;
  Coding : ReaderCoding;
  shiftReg : Z;       (* uint8_t *)
  bitCount : Z;       (* uint8_t *)
  byteCount : Z;      (* int *)
  byteCountMax : Z;   (* int *)
  posCount : Z;       (* int *)
  sum1 : Z;           (* int *)
  sum2 : Z;           (* int *)
  output : buffer
}.

Definition set_state (d : DecodeReader) (v : ReaderState) :=
  mkDecodeReader v (Coding d) (shiftReg d) (bitCount d) (byteCount d)
                 (byteCountMax d) (posCount d) (sum1 d) (sum2 d) (output d).
Definition set_Coding (d : DecodeReader) (v : ReaderCoding) :=
  mkDecodeReader (state d) v (shiftReg d) (bitCount d) (byteCount d)
                 (byteCountMax d) (posCount d) (sum1 d) (sum2 d) (output d).
Definition set_shiftReg (d : DecodeReader) (v : Z) :=
  mkDecodeReader (state d) (Coding d) v (bitCount d) (byteCount d)
                 (byteCountMax d) (posCount d) (sum1 d) (sum2 d) (output d).
Definition set_bitCount (d : DecodeReader) (v : Z) :=
  mkDecodeReader (state d) (Coding d) (shiftReg d) v (byteCount d)
                 (byteCountMax d) (posCount d) (sum1 d) (sum2 d) (output d).
Definition set_byteCount (d : DecodeReader) (v : Z) :=
  mkDecodeReader (state d) (Coding d) (shiftReg d) (bitCount d) v
                 (byteCountMax d) (posCount d) (sum1 d) (sum2 d) (output d).
Definition set_posCount (d : DecodeReader) (v : Z) :=
  mkDecodeReader (state d) (Coding d) (shiftReg d) (bitCount d) (byteCount d)
                 (byteCountMax d) v (sum1 d) (sum2 d) (output d).
Definition set_sum1 (d : DecodeReader) (v : Z) :=
  mkDecodeReader (state d) (Coding d) (shiftReg d) (bitCount d) (byteCount d)
                 (byteCountMax d) (posCount d) v (sum2 d) (output d).
Definition set_sum2 (d : DecodeReader) (v : Z) :=
  mkDecodeReader (state d) (Coding d) (shiftReg d) (bitCount d) (byteCount d)
                 (byteCountMax d) (posCount d) (sum1 d) v (output d).
Definition set_output (d : DecodeReader) (v : buffer) :=
  mkDecodeReader (state d) (Coding d) (shiftReg d) (bitCount d) (byteCount d)
                 (byteCountMax d) (posCount d) (sum1 d) (sum2 d) v.

(** [DecodeReader_t DecodeReader = {0}] followed by [DecodeReaderInit]. *)
Definition DecodeReaderInit (data : buffer) (max_len : Z) : DecodeReader :=
  mkDecodeReader STATE_READER_UNSYNCD CODING_1_OUT_OF_4 0 0 0 max_len 1 0 0 data.

Definition DecodeReaderReset (d : DecodeReader) : DecodeReader :=
  set_state d STATE_READER_UNSYNCD.

(** [output[byteCount++] = shiftReg;] followed by the overflow test, as
    both data states have it when a byte is complete. *)
Definition store_byte (d : DecodeReader) : DecodeReader :=
  let d := set_output d (store (output d) (byteCount d) (shiftReg d)) in
  let d := set_byteCount d (byteCount d + 1) in
  if byteCount d >? byteCountMax d
  then DecodeReaderReset d (* buffer overflow, give up *)
  else d.

(** The accumulation of the two half sums, shared by both data states. *)
Definition accumulate (bit : Z) (d : DecodeReader) : DecodeReader :=
  if posCount d =? 1 then set_sum1 d bit
  else if posCount d <=? 4 then set_sum1 d (sum1 d + bit)
  else if posCount d =? 5 then set_sum2 d bit
  else set_sum2 d (sum2 d + bit).

Definition Handle15693SampleFromReader (bit : Z) (d : DecodeReader)
  : DecodeReader * bool :=
  match state d with
  | STATE_READER_UNSYNCD =>
      (* wait for unmodulated carrier *)
      if negb (bit =? 0)
      then (set_state d STATE_READER_AWAIT_1ST_FALLING_EDGE_OF_SOF, false)
      else (d, false)
  | STATE_READER_AWAIT_1ST_FALLING_EDGE_OF_SOF =>
      if bit =? 0
      then (set_state (set_posCount d 1) STATE_READER_AWAIT_1ST_RISING_EDGE_OF_SOF,
            false)
      else (d, false)
  | STATE_READER_AWAIT_1ST_RISING_EDGE_OF_SOF =>
      let d := set_posCount d (posCount d + 1) in
      if negb (bit =? 0) then
        if posCount d <? 4
        then (set_state d STATE_READER_AWAIT_1ST_FALLING_EDGE_OF_SOF, false)
        else (set_state d STATE_READER_AWAIT_2ND_FALLING_EDGE_OF_SOF, false)
      else
        if posCount d >? 5 then (DecodeReaderReset d, false) else (d, false)
  | STATE_READER_AWAIT_2ND_FALLING_EDGE_OF_SOF =>
      let d := set_posCount d (posCount d + 1) in
      if bit =? 0 then
        if posCount d <? 20 then (DecodeReaderReset d, false)
        else if posCount d <? 23 then
          (set_state (set_Coding d CODING_1_OUT_OF_4)
                     STATE_READER_AWAIT_2ND_RISING_EDGE_OF_SOF, false)
        else if posCount d <? 28 then (DecodeReaderReset d, false)
        else
          (set_state (set_Coding d CODING_1_OUT_OF_256)
                     STATE_READER_AWAIT_2ND_RISING_EDGE_OF_SOF, false)
      else
        if posCount d >? 29
        then (set_state d STATE_READER_AWAIT_1ST_FALLING_EDGE_OF_SOF, false)
        else (d, false)
  | STATE_READER_AWAIT_2ND_RISING_EDGE_OF_SOF =>
      let d := set_posCount d (posCount d + 1) in
      if negb (bit =? 0) then
        match Coding d with
        | CODING_1_OUT_OF_256 =>
            if posCount d <? 32
            then (set_state d STATE_READER_AWAIT_1ST_FALLING_EDGE_OF_SOF, false)
            else
              let d := set_posCount d 1 in
              let d := set_bitCount d 0 in
              let d := set_byteCount d 0 in
              let d := set_sum1 d 1 in
              (set_state d STATE_READER_RECEIVE_DATA_1_OUT_OF_256, false)
        | CODING_1_OUT_OF_4 =>
            if posCount d <? 24
            then (set_state d STATE_READER_AWAIT_1ST_FALLING_EDGE_OF_SOF, false)
            else
              let d := set_posCount d 1 in
              (set_state d STATE_READER_AWAIT_END_OF_SOF_1_OUT_OF_4, false)
        end
      else
        match Coding d with
        | CODING_1_OUT_OF_256 =>
            if posCount d >? 34 then (DecodeReaderReset d, false) else (d, false)
        | CODING_1_OUT_OF_4 =>
            if posCount d >? 26 then (DecodeReaderReset d, false) else (d, false)
        end
  | STATE_READER_AWAIT_END_OF_SOF_1_OUT_OF_4 =>
      let d := set_posCount d (posCount d + 1) in
      if negb (bit =? 0) then
        if posCount d =? 9 then
          let d := set_posCount d 1 in
          let d := set_bitCount d 0 in
          let d := set_byteCount d 0 in
          let d := set_sum1 d 1 in
          (set_state d STATE_READER_RECEIVE_DATA_1_OUT_OF_4, false)
        else (d, false)
      else (DecodeReaderReset d, false)
  | STATE_READER_RECEIVE_DATA_1_OUT_OF_4 =>
      let bit := if bit =? 0 then 0 else 1 in
      let d := set_posCount d (posCount d + 1) in
      let d := accumulate bit d in
      if posCount d =? 8 then
        let d := set_posCount d 0 in
        let eof := (sum1 d <=? 1) && (sum2 d >=? 3) in
        let d := if eof then DecodeReaderReset d else d in
        if eof && negb (byteCount d =? 0) then (d, true)
        else
          let d :=
            if (sum1 d >=? 3) && (sum2 d <=? 1) then
              (* detected a 2bit position *)
              let d := set_shiftReg d (Z.shiftr (shiftReg d) 2) in
              set_shiftReg d (u8 (Z.lor (shiftReg d) (Z.shiftl (bitCount d) 6)))
            else d in
          if bitCount d =? 15 then
            (* we have a full byte *)
            let d := store_byte d in
            let d := set_bitCount d 0 in
            (set_shiftReg d 0, false)
          else (set_bitCount d (u8 (bitCount d + 1)), false)
      else (d, false)
  | STATE_READER_RECEIVE_DATA_1_OUT_OF_256 =>
      let bit := if bit =? 0 then 0 else 1 in
      let d := set_posCount d (posCount d + 1) in
      let d := accumulate bit d in
      if posCount d =? 8 then
        let d := set_posCount d 0 in
        let eof := (sum1 d <=? 1) && (sum2 d >=? 3) in
        let d := if eof then DecodeReaderReset d else d in
        if eof && negb (byteCount d =? 0) then (d, true)
        else
          let d :=
            if (sum1 d >=? 3) && (sum2 d <=? 1)
            then set_shiftReg d (bitCount d) (* detected the bit position *)
            else d in
          let d :=
            if bitCount d =? 255
            then store_byte d (* we have a full byte *)
            else d in
          (set_bitCount d (u8 (bitCount d + 1)), false)
      else (d, false)
  end.

(** The sample loop of [GetIso15693CommandFromReader]: samples are handed
    to the decoder one by one until it reports a frame. *)
Fixpoint DecodeSamples (bits : list Z) (d : DecodeReader) : DecodeReader * bool :=
  match bits with
  | [] => (d, false)
  | b :: rest =>
      let (d', gotFrame) := Handle15693SampleFromReader b d in
      if gotFrame then (d', true) else DecodeSamples rest d'
  end.

(** What the caller finds in its buffer: [byteCount] bytes. *)
Definition received (d : DecodeReader) : list Z :=
  load (output d) 0 (Z.to_nat (byteCount d)).

(** *** Vocabulary of the proofs *)

(** The four [ToSend] bytes of one command byte in 1 out of 4 coding. *)
Definition symbols4 (b : Z) : list Z :=
  map (fun j => one_of_four (Z.land (Z.shiftr b j) 0x03)) [0; 2; 4; 6].

(** The 512 bits stuffed for one command byte in 1 out of 256 coding, and
    the 64 [ToSend] bytes they make. *)
Definition slots256 (b : Z) : list Z :=
  flat_map (fun j => [0; if b =? j then 1 else 0]) (map Z.of_nat (seq 0 256)).

Definition stuff_bits (bits : list Z) (ts : ToSendBuffer.t) : ToSendBuffer.t :=
  fold_left (fun ts b => ToSendStuffBit b ts) bits ts.

Definition block256 (b : Z) : list Z :=
  ToSend (stuff_bits (slots256 b) ToSendReset).

(** The samples of a run of [ToSend] bytes. *)
Definition samples (bytes : list Z) : list Z :=
  flat_map carrier (ToSend_bits bytes).

Definition is_bit (x : Z) : Prop := x = 0 \/ x = 1.

(** The eight samples of one symbol period: unmodulated in its first
    half, with a pause in its second half when [x] is set. *)
Definition slot (x : Z) : list Z := carrier 0 ++ carrier x.

(** Which of the 16 symbol periods of a byte carry a pause in 1 out of 4
    coding, and which of the 256 in 1 out of 256 coding. *)
Definition pulse4 (b q : Z) : Z :=
  if Z.land (Z.shiftr b (2 * (q / 4))) 3 =? q mod 4 then 1 else 0.

Definition pulse256 (b j : Z) : Z := if b =? j then 1 else 0.

Definition pulses4 (b : Z) : list Z := map (pulse4 b) (map Z.of_nat (seq 0 16)).

Definition pulses256 (b : Z) : list Z := map (pulse256 b) (map Z.of_nat (seq 0 256)).

(** What a symbol period with pause flag [x], the [q]-th of its byte, does
    to the shift register. *)
Definition after4 (q sr x : Z) : Z :=
  if x =? 0 then sr else u8 (Z.lor (Z.shiftr sr 2) (Z.shiftl q 6)).

Definition after256 (q sr x : Z) : Z :=
  if x =? 0 then sr else q.

Fixpoint shifts (f : Z -> Z -> Z -> Z) (q : Z) (flags : list Z) (sr : Z) : Z :=
  match flags with
  | [] => sr
  | x :: r => shifts f (q + 1) r (f q sr x)
  end.

(** The decoder at a symbol boundary of the data phase, [q] symbol periods
    into byte number [k]. *)
Definition in4 (sr q k max : Z) (out : buffer) (s1 s2 : Z) : DecodeReader :=
  mkDecodeReader STATE_READER_RECEIVE_DATA_1_OUT_OF_4 CODING_1_OUT_OF_4
                 sr q k max 0 s1 s2 out.

Definition in256 (sr q k max : Z) (out : buffer) (s1 s2 : Z) : DecodeReader :=
  mkDecodeReader STATE_READER_RECEIVE_DATA_1_OUT_OF_256 CODING_1_OUT_OF_256
                 sr q k max 0 s1 s2 out.

(** The decoder is in one of its two data states. *)
Definition receiving (d : DecodeReader) : bool :=
  match state d with
  | STATE_READER_RECEIVE_DATA_1_OUT_OF_4
  | STATE_READER_RECEIVE_DATA_1_OUT_OF_256 => true
  | _ => false
  end.

(** Sample [bit] completes a symbol period whose first half is modulated
    in at most one sample and whose second half in at least three: the
    End-Of-Frame pattern. *)
Definition eof_pattern (bit : Z) (d : DecodeReader) : bool :=
  let d := set_posCount d (posCount d + 1) in
  let d := accumulate (if bit =? 0 then 0 else 1) d in
  (posCount d =? 8) && (sum1 d <=? 1) && (sum2 d >=? 3).

(** The samples at which the carrier is seen: those that are not 0. *)
Definition carrier_seen (l : list Z) : Z :=
  Z.of_nat (length (filter (fun x => negb (x =? 0)) l)).

(** The End-Of-Frame pattern on the air: the eight samples of a symbol
    period, with the pause in the first half (carrier in at most one of
    its four samples) and carrier in the second half (in at least three
    of its four samples). *)
Definition eof_symbol (w : list Z) : Prop :=
  length w = 8%nat
  /\ carrier_seen (firstn 4 w) <= 1
  /\ 3 <= carrier_seen (skipn 4 w).

(** The registers of a decoder in a data state against the samples it was
    given: the last [posCount] of them are the symbol period under way,
    and the two sums count the carrier in its halves. *)
Definition tracks (hist : list Z) (d : DecodeReader) : Prop :=
  receiving d = true ->
  0 <= posCount d <= 7
  /\ exists older sym,
       hist = older ++ sym
       /\ Z.of_nat (length sym) = posCount d
       /\ (1 <= posCount d -> sum1 d = carrier_seen (firstn 4 sym))
       /\ (5 <= posCount d -> sum2 d = carrier_seen (skipn 4 sym)).
(** The ranges the counters of a decoder started by [DecodeReaderInit]
    stay in, state by state. *)
Definition counters_in_range (d : DecodeReader) : Prop :=
  0 <= posCount d <= 35
  /\ 0 <= byteCountMax d
  /\ 0 <= byteCount d <= byteCountMax d + 1
  /\ 0 <= sum1 d <= 4
  /\ 0 <= sum2 d <= 4
  /\ match state d with
     | STATE_READER_AWAIT_1ST_RISING_EDGE_OF_SOF => posCount d <= 5
     | STATE_READER_AWAIT_2ND_FALLING_EDGE_OF_SOF => posCount d <= 29
     | STATE_READER_AWAIT_2ND_RISING_EDGE_OF_SOF => posCount d <= 34
     | STATE_READER_AWAIT_END_OF_SOF_1_OUT_OF_4 => posCount d <= 8
     | STATE_READER_RECEIVE_DATA_1_OUT_OF_4
     | STATE_READER_RECEIVE_DATA_1_OUT_OF_256 =>
         posCount d <= 7 /\ byteCount d <= byteCountMax d
         /\ (1 <= posCount d <= 4 -> sum1 d <= posCount d)
         /\ (5 <= posCount d -> sum2 d <= posCount d - 4)
     | _ => True
     end.

(** What the decoder leaves as it was: the capacity, and every cell of the
    output buffer outside the indices 0 to [byteCountMax]. *)
Definition same_outside (d d' : DecodeReader) : Prop :=
  byteCountMax d' = byteCountMax d
  /\ forall j, j < 0 \/ byteCountMax d < j -> output d' j = output d j.

End Reader15693.


(** ** Tag-direction decoder, one subcarrier (ASK) *)

Module Tag15693.

Definition NOISE_THRESHOLD : Z := 160.
Definition MAX_PREVIOUS_AMPLITUDE : Z := u16 (-1 - NOISE_THRESHOLD).

Inductive TagState :=
| STATE_TAG_SOF_LOW
| STATE_TAG_SOF_RISING_EDGE
| STATE_TAG_SOF_HIGH
| STATE_TAG_SOF_HIGH_END
| STATE_TAG_RECEIVING_DATA
| STATE_TAG_EOF
| STATE_TAG_EOF_TAIL.

Inductive TagBit := LOGIC0 | LOGIC1 | SOF_PART1 | SOF_PART2.

Definition TagBit_eqb (a b : TagBit) : bool :=
  match a, b with
  | LOGIC0, LOGIC0 | LOGIC1, LOGIC1 | SOF_PART1, SOF_PART1 | SOF_PART2, SOF_PART2 => true
  | _, _ => false
  end.

Record DecodeTag := mkDecodeTag {
  state : TagState;
  bitCount : Z;            (* int *)
  posCount : Z;            (* int *)
  lastBit : TagBit;
  shiftReg : Z;            (* uint16_t *)
  max_len : Z;             (* uint16_t *)
  output : buffer;
  len : Z;                 (* int *)
  sum1 : Z;                (* int *)
  sum2 : Z;                (* int *)
  threshold_sof : Z;       (* int *)
  threshold_half : Z;      (* int *)
  previous_amplitude : Z   (* uint16_t *)
}.

Definition set_state (d : DecodeTag) (v : TagState) :=
  mkDecodeTag v (bitCount d) (posCount d) (lastBit d) (shiftReg d) (max_len d)
    (output d) (len d) (sum1 d) (sum2 d) (threshold_sof d) (threshold_half d)
    (previous_amplitude d).
Definition set_bitCount (d : DecodeTag) (v : Z) :=
  mkDecodeTag (state d) v (posCount d) (lastBit d) (shiftReg d) (max_len d)
    (output d) (len d) (sum1 d) (sum2 d) (threshold_sof d) (threshold_half d)
    (previous_amplitude d).
Definition set_posCount (d : DecodeTag) (v : Z) :=
  mkDecodeTag (state d) (bitCount d) v (lastBit d) (shiftReg d) (max_len d)
    (output d) (len d) (sum1 d) (sum2 d) (threshold_sof d) (threshold_half d)
    (previous_amplitude d).
Definition set_lastBit (d : DecodeTag) (v : TagBit) :=
  mkDecodeTag (state d) (bitCount d) (posCount d) v (shiftReg d) (max_len d)
    (output d) (len d) (sum1 d) (sum2 d) (threshold_sof d) (threshold_half d)
    (previous_amplitude d).
Definition set_shiftReg (d : DecodeTag) (v : Z) :=
  mkDecodeTag (state d) (bitCount d) (posCount d) (lastBit d) v (max_len d)
    (output d) (len d) (sum1 d) (sum2 d) (threshold_sof d) (threshold_half d)
    (previous_amplitude d).
Definition set_output (d : DecodeTag) (v : buffer) :=
  mkDecodeTag (state d) (bitCount d) (posCount d) (lastBit d) (shiftReg d) (max_len d)
    v (len d) (sum1 d) (sum2 d) (threshold_sof d) (threshold_half d)
    (previous_amplitude d).
Definition set_len (d : DecodeTag) (v : Z) :=
  mkDecodeTag (state d) (bitCount d) (posCount d) (lastBit d) (shiftReg d) (max_len d)
    (output d) v (sum1 d) (sum2 d) (threshold_sof d) (threshold_half d)
    (previous_amplitude d).
Definition set_sum1 (d : DecodeTag) (v : Z) :=
  mkDecodeTag (state d) (bitCount d) (posCount d) (lastBit d) (shiftReg d) (max_len d)
    (output d) (len d) v (sum2 d) (threshold_sof d) (threshold_half d)
    (previous_amplitude d).
Definition set_sum2 (d : DecodeTag) (v : Z) :=
  mkDecodeTag (state d) (bitCount d) (posCount d) (lastBit d) (shiftReg d) (max_len d)
    (output d) (len d) (sum1 d) v (threshold_sof d) (threshold_half d)
    (previous_amplitude d).
Definition set_threshold_sof (d : DecodeTag) (v : Z) :=
  mkDecodeTag (state d) (bitCount d) (posCount d) (lastBit d) (shiftReg d) (max_len d)
    (output d) (len d) (sum1 d) (sum2 d) v (threshold_half d)
    (previous_amplitude d).
Definition set_threshold_half (d : DecodeTag) (v : Z) :=
  mkDecodeTag (state d) (bitCount d) (posCount d) (lastBit d) (shiftReg d) (max_len d)
    (output d) (len d) (sum1 d) (sum2 d) (threshold_sof d) v
    (previous_amplitude d).
Definition set_previous_amplitude (d : DecodeTag) (v : Z) :=
  mkDecodeTag (state d) (bitCount d) (posCount d) (lastBit d) (shiftReg d) (max_len d)
    (output d) (len d) (sum1 d) (sum2 d) (threshold_sof d) (threshold_half d) v.

(** [DecodeTag_t DecodeTag = { 0 }] followed by [DecodeTagInit]. *)
Definition DecodeTagInit (data : buffer) (max_len : Z) : DecodeTag :=
  mkDecodeTag STATE_TAG_SOF_LOW 0 0 LOGIC0 0 max_len data 0 0 0 0 0
              MAX_PREVIOUS_AMPLITUDE.

(** The recurring [posCount = 0; previous_amplitude = amplitude;
    state = STATE_TAG_SOF_LOW;] *)
Definition resync (amplitude : Z) (d : DecodeTag) : DecodeTag :=
  let d := set_posCount d 0 in
  let d := set_previous_amplitude d amplitude in
  set_state d STATE_TAG_SOF_LOW.

(** The two half sums of a bit period, as the three data states build them. *)
Definition accumulate (amplitude : Z) (recv_speed : bool) (d : DecodeTag) : DecodeTag :=
  let d := if posCount d =? 1 then set_sum2 (set_sum1 d 0) 0 else d in
  if posCount d <=? (if recv_speed then 4 else 16)
  then set_sum1 d (sum1 d + amplitude)
  else set_sum2 d (sum2 d + amplitude).

Definition Handle15693SamplesFromTag (amplitude : Z) (d : DecodeTag) (recv_speed : bool)
  : DecodeTag * bool :=
  match state d with
  | STATE_TAG_SOF_LOW =>
      (* waiting for a rising edge *)
      if amplitude >? NOISE_THRESHOLD + previous_amplitude d then
        if posCount d >? 10 then
          let d := set_threshold_sof d (amplitude - previous_amplitude d) in
          let d := set_threshold_half d 0 in
          (set_state d STATE_TAG_SOF_RISING_EDGE, false)
        else (set_posCount d 0, false)
      else
        let d := set_posCount d (posCount d + 1) in
        (set_previous_amplitude d amplitude, false)
  | STATE_TAG_SOF_RISING_EDGE =>
      let d :=
        if amplitude - previous_amplitude d >? threshold_sof d then
          (* edge still rising *)
          let d := if amplitude - threshold_sof d >? threshold_sof d
                   then set_posCount d 1 (* steeper edge, take this as time reference *)
                   else set_posCount d 2 in
          set_threshold_sof d (Z.quot (amplitude - previous_amplitude d) 2)
        else
          let d := set_posCount d 2 in
          set_threshold_sof d (Z.quot (threshold_sof d) 2) in
      (set_state d STATE_TAG_SOF_HIGH, false)
  | STATE_TAG_SOF_HIGH =>
      (* waiting for 10 times high. Take average over the last 8 *)
      if amplitude >? threshold_sof d then
        let d := set_posCount d (posCount d + 1) in
        let d := if posCount d >? 2
                 then set_threshold_half d (threshold_half d + amplitude)
                 else d in
        if posCount d =? (if recv_speed then 10 else 40) then
          let d := set_threshold_half d (Z.shiftr (threshold_half d) 2) in
          (set_state d STATE_TAG_SOF_HIGH_END, false)
        else (d, false)
      else
        (* high phase was too short *)
        let d := set_posCount d 1 in
        let d := set_previous_amplitude d amplitude in
        (set_state d STATE_TAG_SOF_LOW, false)
  | STATE_TAG_SOF_HIGH_END =>
      (* check for falling edge *)
      if (posCount d =? (if recv_speed then 13 else 52))
         && (amplitude <? threshold_sof d) then
        let d := set_lastBit d SOF_PART1 in
        let d := set_shiftReg d 0 in
        let d := set_bitCount d 0 in
        let d := set_len d 0 in
        let d := set_sum1 d amplitude in
        let d := set_sum2 d 0 in
        let d := set_posCount d 2 in
        (set_state d STATE_TAG_RECEIVING_DATA, false)
      else
        let d := set_posCount d (posCount d + 1) in
        if posCount d >? (if recv_speed then 13 else 52)
        then (resync amplitude d, false) (* high phase too long *)
        else (d, false)
  | STATE_TAG_RECEIVING_DATA =>
      let d := accumulate amplitude recv_speed d in
      if posCount d =? (if recv_speed then 8 else 32) then
        if (sum1 d >? threshold_half d) && (sum2 d >? threshold_half d) then
          (* modulation in both halves *)
          let d := if TagBit_eqb (lastBit d) LOGIC0
                   then set_state d STATE_TAG_EOF (* this was already part of EOF *)
                   else resync amplitude d in
          (set_posCount (set_posCount d 0) (0 + 1), false)
        else if (sum1 d <? threshold_half d) && (sum2 d >? threshold_half d) then
          (* modulation in second half: logic 1 *)
          if TagBit_eqb (lastBit d) SOF_PART1 then
            (* still part of SOF *)
            let d := set_lastBit d SOF_PART2 in
            (set_posCount (set_posCount d 0) (0 + 1), false)
          else
            let d := set_lastBit d LOGIC1 in
            let d := set_shiftReg d (Z.shiftr (shiftReg d) 1) in
            let d := set_shiftReg d (u16 (Z.lor (shiftReg d) 0x80)) in
            let d := set_bitCount d (bitCount d + 1) in
            if bitCount d =? 8 then
              let d := set_output d (store (output d) (len d) (u8 (shiftReg d))) in
              let d := set_len d (len d + 1) in
              if len d >? max_len d then
                (* buffer overflow, give up *)
                (d, true)
              else
                let d := set_bitCount d 0 in
                let d := set_shiftReg d 0 in
                (set_posCount (set_posCount d 0) (0 + 1), false)
            else (set_posCount (set_posCount d 0) (0 + 1), false)
        else if (sum1 d >? threshold_half d) && (sum2 d <? threshold_half d) then
          (* modulation in first half: logic 0 *)
          if TagBit_eqb (lastBit d) SOF_PART1 then
            (* incomplete SOF *)
            let d := resync amplitude d in
            (set_posCount (set_posCount d 0) (0 + 1), false)
          else
            let d := set_lastBit d LOGIC0 in
            let d := set_shiftReg d (Z.shiftr (shiftReg d) 1) in
            let d := set_bitCount d (bitCount d + 1) in
            let d :=
              if bitCount d =? 8 then
                let d := set_output d (store (output d) (len d) (u8 (shiftReg d))) in
                let d := set_len d (len d + 1) in
                let d := if len d >? max_len d
                         then resync amplitude d (* buffer overflow, give up *)
                         else d in
                let d := set_bitCount d 0 in
                set_shiftReg d 0
              else d in
            (set_posCount (set_posCount d 0) (0 + 1), false)
        else
          (* no modulation *)
          if TagBit_eqb (lastBit d) SOF_PART2 then
            (* only SOF (this is OK for iClass) *)
            (d, true)
          else
            let d := set_posCount d 0 in
            let d := set_state d STATE_TAG_SOF_LOW in
            (set_posCount (set_posCount d 0) (0 + 1), false)
      else (set_posCount d (posCount d + 1), false)
  | STATE_TAG_EOF =>
      let d := accumulate amplitude recv_speed d in
      if posCount d =? (if recv_speed then 8 else 32) then
        let d :=
          if (sum1 d >? threshold_half d) && (sum2 d <? threshold_half d) then
            (* modulation in first half *)
            let d := set_posCount d 0 in
            set_state d STATE_TAG_EOF_TAIL
          else resync amplitude d in
        (set_posCount d (posCount d + 1), false)
      else (set_posCount d (posCount d + 1), false)
  | STATE_TAG_EOF_TAIL =>
      let d := accumulate amplitude recv_speed d in
      if posCount d =? (if recv_speed then 8 else 32) then
        if (sum1 d <? threshold_half d) && (sum2 d <? threshold_half d) then
          (* no modulation in both halves *)
          (d, true)
        else
          let d := resync amplitude d in
          (set_posCount d (posCount d + 1), false)
      else (set_posCount d (posCount d + 1), false)
  end.

(** The sample loop of [GetIso15693AnswerFromTag], without its timeout. *)
Fixpoint DecodeSamples (samples : list Z) (recv_speed : bool) (d : DecodeTag)
  : DecodeTag * bool :=
  match samples with
  | [] => (d, false)
  | a :: rest =>
      let (d', eof) := Handle15693SamplesFromTag a d recv_speed in
      if eof then (d', true) else DecodeSamples rest recv_speed d'
  end.

(** *** Vocabulary of the proofs: an ideal tag response at high speed *)

(** Eight samples per bit: amplitude 1000 where the subcarrier is on. *)
Definition tag_bit (one : bool) : list Z :=
  if one
  then [0; 0; 0; 0; 1000; 1000; 1000; 1000]
  else [1000; 1000; 1000; 1000; 0; 0; 0; 0].

(** A byte, least significant bit first. *)
Definition tag_byte (v : Z) : list Z :=
  flat_map (fun i => tag_bit (Z.testbit v i)) [0; 1; 2; 3; 4; 5; 6; 7].

(** Silence, the subcarrier burst of the SOF and its closing logic 1. *)
Definition tag_sof : list Z :=
  repeat 0 12 ++ repeat 1000 13 ++ tag_bit true.

(** While bytes are being received, [len] is an index of the buffer or
    the capacity itself. *)
Definition len_in_range (d : DecodeTag) : Prop :=
  0 <= max_len d
  /\ (state d = STATE_TAG_RECEIVING_DATA -> 0 <= len d <= max_len d).

(** What the decoder leaves as it was: the capacity, and every cell of the
    output buffer outside the indices 0 to [max_len]. *)
Definition tag_same_outside (d d' : DecodeTag) : Prop :=
  max_len d' = max_len d
  /\ forall j, j < 0 \/ max_len d < j -> output d' j = output d j.

End Tag15693.

(** ** Tag-direction decoder, two subcarriers (FSK) *)

Module TagFSK15693.

Definition FREQ_IS_484 (f : Z) : bool := (f >=? 26) && (f <=? 30).
Definition FREQ_IS_424 (f : Z) : bool := (f >=? 30) && (f <=? 34).
Definition SEOF_COUNT (c : Z) (s : bool) : bool :=
  if s then (c >=? 11) && (c <=? 13) else (c >=? 44) && (c <=? 52).
Definition LOGIC_COUNT (c : Z) (s : bool) : bool :=
  if s then (c >=? 3) && (c <=? 6) else (c >=? 13) && (c <=? 21).
Definition MAX_COUNT (c : Z) (s : bool) : bool :=
  if s then c >=? 13 else c >=? 52.
Definition MIN_COUNT (c : Z) (s : bool) : bool :=
  if s then c <=? 2 else c <=? 4.

Inductive FSKState :=
| STATE_FSK_BEFORE_SOF
| STATE_FSK_SOF_484
| STATE_FSK_SOF_424
| STATE_FSK_SOF_END
| STATE_FSK_RECEIVING_DATA_484
| STATE_FSK_RECEIVING_DATA_424
| STATE_FSK_EOF
| STATE_FSK_ERROR.

Inductive FSKBit := LOGIC0_PART1 | LOGIC1_PART1 | LOGIC0_PART2 | LOGIC1_PART2 | SOF.

(** The enumerators as the integers the compiler gives them. *)
Definition FSKBit_value (b : FSKBit) : Z :=
  match b with
  | LOGIC0_PART1 => 0
  | LOGIC1_PART1 => 1
  | LOGIC0_PART2 => 2
  | LOGIC1_PART2 => 3
  | SOF => 4
  end.

Definition FSKBit_eqb (a b : FSKBit) : bool := FSKBit_value a =? FSKBit_value b.

Record DecodeTagFSK := mkDecodeTagFSK {
  state : FSKState;
  lastBit : FSKBit;
  count : Z;       (* uint8_t *)
  bitCount : Z;    (* uint8_t *)
  shiftReg : Z;    (* uint8_t *)
  len : Z;         (* uint16_t *)
  max_len : Z;     (* uint16_t *)
  output : buffer
}.

Definition set_state (d : DecodeTagFSK) (v : FSKState) :=
  mkDecodeTagFSK v (lastBit d) (count d) (bitCount d) (shiftReg d) (len d)
                 (max_len d) (output d).
Definition set_lastBit (d : DecodeTagFSK) (v : FSKBit) :=
  mkDecodeTagFSK (state d) v (count d) (bitCount d) (shiftReg d) (len d)
                 (max_len d) (output d).
Definition set_count (d : DecodeTagFSK) (v : Z) :=
  mkDecodeTagFSK (state d) (lastBit d) v (bitCount d) (shiftReg d) (len d)
                 (max_len d) (output d).
Definition set_bitCount (d : DecodeTagFSK) (v : Z) :=
  mkDecodeTagFSK (state d) (lastBit d) (count d) v (shiftReg d) (len d)
                 (max_len d) (output d).
Definition set_shiftReg (d : DecodeTagFSK) (v : Z) :=
  mkDecodeTagFSK (state d) (lastBit d) (count d) (bitCount d) v (len d)
                 (max_len d) (output d).
Definition set_len (d : DecodeTagFSK) (v : Z) :=
  mkDecodeTagFSK (state d) (lastBit d) (count d) (bitCount d) (shiftReg d) v
                 (max_len d) (output d).
Definition set_output (d : DecodeTagFSK) (v : buffer) :=
  mkDecodeTagFSK (state d) (lastBit d) (count d) (bitCount d) (shiftReg d) (len d)
                 (max_len d) v.

(** [DecodeTagFSK_t DecodeTag = { 0 }] followed by [DecodeTagFSKInit]. *)
Definition DecodeTagFSKInit (data : buffer) (max_len : Z) : DecodeTagFSK :=
  mkDecodeTagFSK STATE_FSK_BEFORE_SOF LOGIC0_PART1 0 0 0 0 max_len data.

(** A completed bit: shift it in and, every eighth bit, store the byte;
    the flag is the [return true] of the overflow test. *)
Definition shift_in (one : bool) (d : DecodeTagFSK) : DecodeTagFSK * bool :=
  let d := set_shiftReg d (Z.shiftr (shiftReg d) 1) in
  let d := if one then set_shiftReg d (u8 (Z.lor (shiftReg d) 0x80)) else d in
  let d := set_bitCount d (u8 (bitCount d + 1)) in
  if bitCount d =? 8 then
    let d := set_output d (store (output d) (len d) (shiftReg d)) in
    let d := set_len d (u16 (len d + 1)) in
    if len d >? max_len d
    then (d, true) (* buffer overflow, give up *)
    else (set_shiftReg (set_bitCount d 0) 0, false)
  else (d, false).

Definition Handle15693FSKSamplesFromTag (freq : Z) (d : DecodeTagFSK) (recv_speed : bool)
  : DecodeTagFSK * bool :=
  match state d with
  | STATE_FSK_BEFORE_SOF =>
      if FREQ_IS_484 freq then
        (* possible SOF starting *)
        let d := set_state d STATE_FSK_SOF_484 in
        let d := set_lastBit d LOGIC0_PART1 in
        (set_count d 1, false)
      else (d, false)
  | STATE_FSK_SOF_484 =>
      if FREQ_IS_484 freq && negb (MAX_COUNT (count d) recv_speed)
      then (set_count d (u8 (count d + 1)), false) (* still in SOF at 484 *)
      else if FREQ_IS_424 freq && SEOF_COUNT (count d) recv_speed
      then (set_count (set_state d STATE_FSK_SOF_424) 1, false)
      else (set_state d STATE_FSK_BEFORE_SOF, false) (* SOF failed, roll back *)
  | STATE_FSK_SOF_424 =>
      if FREQ_IS_424 freq && negb (MAX_COUNT (count d) recv_speed)
      then (set_count d (u8 (count d + 1)), false) (* still in SOF at 424 *)
      else if FREQ_IS_484 freq && SEOF_COUNT (count d) recv_speed
      then (set_count (set_state d STATE_FSK_SOF_END) 1, false)
      else (set_state d STATE_FSK_BEFORE_SOF, false) (* SOF failed, roll back *)
  | STATE_FSK_SOF_END =>
      if FREQ_IS_484 freq && negb (MAX_COUNT (count d) recv_speed)
      then (set_count d (u8 (count d + 1)), false) (* still in SOF_END (484) *)
      else if FREQ_IS_424 freq && LOGIC_COUNT (count d) recv_speed then
        let d := set_count d 0 in
        let d := if FSKBit_eqb (lastBit d) SOF
                 then set_state d STATE_FSK_RECEIVING_DATA_424
                 else d in
        (set_lastBit d SOF, false)
      else if FREQ_IS_424 freq && negb (MAX_COUNT (count d) recv_speed)
      then (set_count d (u8 (count d + 1)), false) (* still in SOF_END (424) *)
      else if FSKBit_eqb (lastBit d) SOF && FREQ_IS_484 freq
              && LOGIC_COUNT (count d) recv_speed
      then (set_count (set_state d STATE_FSK_RECEIVING_DATA_484) 1, false)
      else (set_state d STATE_FSK_BEFORE_SOF, false) (* SOF failed, roll back *)
  | STATE_FSK_RECEIVING_DATA_424 =>
      if FSKBit_eqb (lastBit d) LOGIC1_PART1 && LOGIC_COUNT (count d) recv_speed then
        (* logic 1 finished *)
        let d := set_lastBit d LOGIC1_PART2 in
        let d := set_count d 0 in
        shift_in true d
      else if FREQ_IS_424 freq && negb (MAX_COUNT (count d) recv_speed)
      then (set_count d (u8 (count d + 1)), false) (* still at 424 *)
      else if FREQ_IS_484 freq && LOGIC_COUNT (count d) recv_speed
              && (FSKBit_value (lastBit d) >=? FSKBit_value LOGIC0_PART2) then
        (* end of LOGIC0_PART1 *)
        let d := set_count d 1 in
        let d := set_state d STATE_FSK_RECEIVING_DATA_484 in
        (set_lastBit d LOGIC0_PART1, false)
      else if FREQ_IS_484 freq && MIN_COUNT (count d) recv_speed then
        (* it was just the end of the previous block *)
        (set_state (set_count d 1) STATE_FSK_RECEIVING_DATA_484, false)
      else if FREQ_IS_484 freq && FSKBit_eqb (lastBit d) LOGIC0_PART2
              && SEOF_COUNT (count d) recv_speed then
        (* EOF has started *)
        (set_state (set_count d 1) STATE_FSK_EOF, false)
      else (set_state d STATE_FSK_ERROR, true)
  | STATE_FSK_RECEIVING_DATA_484 =>
      if FSKBit_eqb (lastBit d) LOGIC0_PART1 && LOGIC_COUNT (count d) recv_speed then
        (* logic 0 finished *)
        let d := set_lastBit d LOGIC0_PART2 in
        let d := set_count d 0 in
        shift_in false d
      else if FREQ_IS_484 freq && negb (MAX_COUNT (count d) recv_speed)
      then (set_count d (u8 (count d + 1)), false) (* still at 484 *)
      else if FREQ_IS_424 freq && LOGIC_COUNT (count d) recv_speed
              && (FSKBit_value (lastBit d) >=? FSKBit_value LOGIC0_PART2) then
        (* end of LOGIC1_PART1 *)
        let d := set_count d 1 in
        let d := set_state d STATE_FSK_RECEIVING_DATA_424 in
        (set_lastBit d LOGIC1_PART1, false)
      else if FREQ_IS_424 freq && MIN_COUNT (count d) recv_speed then
        (* it was just the end of the previous block *)
        (set_state (set_count d 1) STATE_FSK_RECEIVING_DATA_424, false)
      else (set_state d STATE_FSK_ERROR, true)
  | STATE_FSK_EOF =>
      if FREQ_IS_484 freq && negb (MAX_COUNT (count d) recv_speed) then
        (* still at 484 *)
        let d := set_count d (u8 (count d + 1)) in
        if SEOF_COUNT (count d) recv_speed
        then (d, true) (* end of the transmission *)
        else (d, false)
      else (set_state d STATE_FSK_ERROR, true)
  | STATE_FSK_ERROR => (d, true)
  end.

End TagFSK15693.

(** ** iCLASS tag emulation *)

Module IClass.

Import ToSendBuffer.

(** Modelled from the spec: the command bytes of [protocols.h], which is
    not among the given sources.  [0a], [0c], [81], [88], [18] and [06] are
    confirmed by comments of [doIClassSimulation]; the others are the
    PicoPass values. *)
Definition ICLASS_CMD_ACTALL : Z := 0x0A.
Definition ICLASS_CMD_READ_OR_IDENTIFY : Z := 0x0C.
Definition ICLASS_CMD_SELECT : Z := 0x81.
Definition ICLASS_CMD_PAGESEL : Z := 0x84.
Definition ICLASS_CMD_READCHECK_KD : Z := 0x88.
Definition ICLASS_CMD_READCHECK_KC : Z := 0x18.
Definition ICLASS_CMD_CHECK_KC : Z := 0x95.
Definition ICLASS_CMD_CHECK_KD : Z := 0x05.
Definition ICLASS_CMD_HALT : Z := 0x00.
Definition ICLASS_CMD_UPDATE : Z := 0x87.
Definition ICLASS_CMD_READ4 : Z := 0x06.

(** The values of [simulationMode] that [SimulateIClass] passes on. *)
Inductive SimulationMode :=
| ICLASS_SIM_MODE_CSN
| ICLASS_SIM_MODE_EXIT_AFTER_MAC
| ICLASS_SIM_MODE_FULL.

Definition is_FULL (m : SimulationMode) : bool :=
  match m with ICLASS_SIM_MODE_FULL => true | _ => false end.
Definition is_EXIT_AFTER_MAC (m : SimulationMode) : bool :=
  match m with ICLASS_SIM_MODE_EXIT_AFTER_MAC => true | _ => false end.

Definition rotateCSN (originalCSN : list Z) : list Z :=
  map (fun i =>
         u8 (Z.lor (Z.shiftr (nth i originalCSN 0) 3)
                   (Z.shiftl (nth ((i + 1) mod 8) originalCSN 0) 5)))
      (seq 0 8).

(** [encode_4bits[16]] of [iso15693.c]. *)
Definition encode_4bits : list Z :=
  [0xaa; 0x6a; 0x9a; 0x5a; 0xa6; 0x66; 0x96; 0x56;
   0xa9; 0x69; 0x99; 0x59; 0xa5; 0x65; 0x95; 0x55].

Definition CodeIso15693AsTag (cmd : list Z) : list Z :=
  let ts := ToSendReset in
  (* SOF *)
  let ts := put 0x1D ts in
  (* data *)
  let ts :=
    fold_left (fun ts b =>
                 let ts := put (nth (Z.to_nat (Z.land b 0xF)) encode_4bits 0) ts in
                 put (nth (Z.to_nat (Z.shiftr b 4)) encode_4bits 0) ts)
              cmd ts in
  (* EOF *)
  let ts := put 0xB8 ts in
  ToSend ts.

(** Encode SOF only *)
Definition CodeIClassTagSOF : list Z := ToSend (put 0x1D ToSendReset).

Inductive ChipState := IDLE | ACTIVATED | SELECTED | HALTED.

Definition ChipState_eqb (a b : ChipState) : bool :=
  match a, b with
  | IDLE, IDLE | ACTIVATED, ACTIVATED | SELECTED, SELECTED | HALTED, HALTED => true
  | _, _ => false
  end.

(** Which of the two key contexts a pointer refers to. *)
Inductive KeySel := KD | KC.

(** What is sent and what is logged for one command:
    [modulated_response] with [modulated_response_size] its length, and
    [trace_data].  Nothing is transmitted when [modulated_response] is empty. *)
Record Response := mkResponse {
  modulated_response : list Z;
  trace_data : list Z
}.

Definition no_response : Response := mkResponse [] [].

(** What the dispatcher calls but does not define: the cipher of
    [optimized_cipher.h] with its opaque [State], and the CRC of
    [iso14443crc.h] with the iCLASS initial value. *)
Record External := mkExternal {
  State : Type;
  opt_doTagMAC_1 : list Z -> list Z -> State;           (* e-purse, key *)
  opt_doTagMAC_2 : State -> list Z -> list Z -> list Z; (* state, nr, key: the MAC *)
  ComputeCrc14443 : Z -> list Z -> Z * Z;               (* type, data: first, second *)
  CRC_ICLASS : Z
}.

Section Dispatcher.

Variable X : External.

(** [data[0 .. len-1]] followed by the two CRC bytes that
    [ComputeCrc14443] writes at [data + len] and [data + len + 1]. *)
Definition AppendCrc (data : list Z) (len : nat) : list Z :=
  let crc := ComputeCrc14443 X (CRC_ICLASS X) (firstn len data) in
  firstn len data ++ [fst crc; snd crc].

(** The two CRC bytes of a block, as [AppendCrc] computes them. *)
Definition crc_of (data : list Z) : list Z :=
  [fst (ComputeCrc14443 X (CRC_ICLASS X) data);
   snd (ComputeCrc14443 X (CRC_ICLASS X) data)].

(** What [doIClassSimulation] fixes before its loop. *)
Record Card := mkCard {
  simulationMode : SimulationMode;
  page_size : Z;          (* uint16_t *)
  max_page : Z;           (* uint8_t *)
  anticoll_data : list Z; (* 10 bytes *)
  csn_data : list Z;      (* 10 bytes *)
  conf_block : list Z;    (* 10 bytes *)
  ff_data : list Z;
  aia_data : list Z;
  resp_sof : list Z;
  resp_anticoll : list Z;
  resp_csn : list Z;
  resp_conf : list Z;
  resp_ff : list Z;
  resp_aia : list Z
}.

(** What the loop of [doIClassSimulation] reads and writes.  [cipher_state]
    and [diversified_key] are pointers into the arrays of the same record:
    they are kept as the place they point to. *)
Record Session := mkSession {
  chip_state : ChipState;
  current_page : Z;                 (* uint8_t *)
  cipher_state_KC : Z -> State X;   (* State [8], by index *)
  cipher_state_KD : Z -> State X;   (* State [8], by index *)
  cipher_state : KeySel * Z;        (* &cipher_state_K?[index] *)
  emulator : buffer;
  diversified_key_d : list Z;
  diversified_key_c : list Z;
  diversified_key : KeySel;
  card_challenge_data : list Z;
  resp_cc : list Z;
  personalization_mode : bool;
  reader_mac_buf : option buffer;
  exitLoop : bool
}.

Definition set_chip_state (s : Session) (v : ChipState) :=
  mkSession v (current_page s) (cipher_state_KC s) (cipher_state_KD s)
    (cipher_state s) (emulator s) (diversified_key_d s) (diversified_key_c s)
    (diversified_key s) (card_challenge_data s) (resp_cc s)
    (personalization_mode s) (reader_mac_buf s) (exitLoop s).
Definition set_current_page (s : Session) (v : Z) :=
  mkSession (chip_state s) v (cipher_state_KC s) (cipher_state_KD s)
    (cipher_state s) (emulator s) (diversified_key_d s) (diversified_key_c s)
    (diversified_key s) (card_challenge_data s) (resp_cc s)
    (personalization_mode s) (reader_mac_buf s) (exitLoop s).
Definition set_cipher_state_KC (s : Session) (v : Z -> State X) :=
  mkSession (chip_state s) (current_page s) v (cipher_state_KD s)
    (cipher_state s) (emulator s) (diversified_key_d s) (diversified_key_c s)
    (diversified_key s) (card_challenge_data s) (resp_cc s)
    (personalization_mode s) (reader_mac_buf s) (exitLoop s).
Definition set_cipher_state_KD (s : Session) (v : Z -> State X) :=
  mkSession (chip_state s) (current_page s) (cipher_state_KC s) v
    (cipher_state s) (emulator s) (diversified_key_d s) (diversified_key_c s)
    (diversified_key s) (card_challenge_data s) (resp_cc s)
    (personalization_mode s) (reader_mac_buf s) (exitLoop s).
Definition set_cipher_state (s : Session) (v : KeySel * Z) :=
  mkSession (chip_state s) (current_page s) (cipher_state_KC s) (cipher_state_KD s)
    v (emulator s) (diversified_key_d s) (diversified_key_c s)
    (diversified_key s) (card_challenge_data s) (resp_cc s)
    (personalization_mode s) (reader_mac_buf s) (exitLoop s).
Definition set_emulator (s : Session) (v : buffer) :=
  mkSession (chip_state s) (current_page s) (cipher_state_KC s) (cipher_state_KD s)
    (cipher_state s) v (diversified_key_d s) (diversified_key_c s)
    (diversified_key s) (card_challenge_data s) (resp_cc s)
    (personalization_mode s) (reader_mac_buf s) (exitLoop s).
Definition set_diversified_key_d (s : Session) (v : list Z) :=
  mkSession (chip_state s) (current_page s) (cipher_state_KC s) (cipher_state_KD s)
    (cipher_state s) (emulator s) v (diversified_key_c s)
    (diversified_key s) (card_challenge_data s) (resp_cc s)
    (personalization_mode s) (reader_mac_buf s) (exitLoop s).
Definition set_diversified_key_c (s : Session) (v : list Z) :=
  mkSession (chip_state s) (current_page s) (cipher_state_KC s) (cipher_state_KD s)
    (cipher_state s) (emulator s) (diversified_key_d s) v
    (diversified_key s) (card_challenge_data s) (resp_cc s)
    (personalization_mode s) (reader_mac_buf s) (exitLoop s).
Definition set_diversified_key (s : Session) (v : KeySel) :=
  mkSession (chip_state s) (current_page s) (cipher_state_KC s) (cipher_state_KD s)
    (cipher_state s) (emulator s) (diversified_key_d s) (diversified_key_c s)
    v (card_challenge_data s) (resp_cc s)
    (personalization_mode s) (reader_mac_buf s) (exitLoop s).
Definition set_card_challenge_data (s : Session) (v : list Z) :=
  mkSession (chip_state s) (current_page s) (cipher_state_KC s) (cipher_state_KD s)
    (cipher_state s) (emulator s) (diversified_key_d s) (diversified_key_c s)
    (diversified_key s) v (resp_cc s)
    (personalization_mode s) (reader_mac_buf s) (exitLoop s).
Definition set_resp_cc (s : Session) (v : list Z) :=
  mkSession (chip_state s) (current_page s) (cipher_state_KC s) (cipher_state_KD s)
    (cipher_state s) (emulator s) (diversified_key_d s) (diversified_key_c s)
    (diversified_key s) (card_challenge_data s) v
    (personalization_mode s) (reader_mac_buf s) (exitLoop s).
Definition set_personalization_mode (s : Session) (v : bool) :=
  mkSession (chip_state s) (current_page s) (cipher_state_KC s) (cipher_state_KD s)
    (cipher_state s) (emulator s) (diversified_key_d s) (diversified_key_c s)
    (diversified_key s) (card_challenge_data s) (resp_cc s)
    v (reader_mac_buf s) (exitLoop s).
Definition set_reader_mac_buf (s : Session) (v : option buffer) :=
  mkSession (chip_state s) (current_page s) (cipher_state_KC s) (cipher_state_KD s)
    (cipher_state s) (emulator s) (diversified_key_d s) (diversified_key_c s)
    (diversified_key s) (card_challenge_data s) (resp_cc s)
    (personalization_mode s) v (exitLoop s).
Definition set_exitLoop (s : Session) (v : bool) :=
  mkSession (chip_state s) (current_page s) (cipher_state_KC s) (cipher_state_KD s)
    (cipher_state s) (emulator s) (diversified_key_d s) (diversified_key_c s)
    (diversified_key s) (card_challenge_data s) (resp_cc s)
    (personalization_mode s) (reader_mac_buf s) v.

(** [!memcmp (a, b, n)] *)
Definition same_bytes (n : nat) (a b : list Z) : bool :=
  forallb (fun i => nth i a 0 =? nth i b 0) (seq 0 n).

(** An array cell assignment [a[i] = v]. *)
Definition set_cell {A} (a : Z -> A) (i : Z) (v : A) : Z -> A :=
  fun j => if j =? i then v else a j.

(** [*cipher_state] and [diversified_key], through the pointers. *)
Definition deref_cipher_state (s : Session) : State X :=
  match cipher_state s with
  | (KD, i) => cipher_state_KD s i
  | (KC, i) => cipher_state_KC s i
  end.

Definition deref_diversified_key (s : Session) : list Z :=
  match diversified_key s with
  | KD => diversified_key_d s
  | KC => diversified_key_c s
  end.

(** [memcpy (reader_mac_buf + off, src, 8)] under [reader_mac_buf != NULL]. *)
Definition save_mac (off : Z) (src : list Z) (b : option buffer) : option buffer :=
  match b with
  | Some m => Some (store_list m off (firstn 8 src))
  | None => None
  end.

Definition default_conf_block : list Z :=
  [0x12; 0xFF; 0xFF; 0xFF; 0x7F; 0x1F; 0xFF; 0x3C; 0x00; 0x00].
Definition default_card_challenge_data : list Z :=
  [0xfe; 0xff; 0xff; 0xff; 0xff; 0xff; 0xff; 0xff].
Definition all_ff : list Z :=
  [0xFF; 0xFF; 0xFF; 0xFF; 0xFF; 0xFF; 0xFF; 0xFF; 0x00; 0x00].

(** The precalculation loop [for (int i = 1; i < max_page; i++)]. *)
Definition precalculate (emulator : buffer) (page_size max_page : Z)
    (kd kc : Z -> State X) : (Z -> State X) * (Z -> State X) :=
  fold_left
    (fun (a : (Z -> State X) * (Z -> State X)) (i : Z) =>
       let epurse := load emulator (i * page_size + 8 * 2) 8 in
       let Kd := load emulator (i * page_size + 8 * 3) 8 in
       let Kc := load emulator (i * page_size + 8 * 4) 8 in
       (set_cell (fst a) i (opt_doTagMAC_1 X epurse Kd),
        set_cell (snd a) i (opt_doTagMAC_1 X epurse Kc)))
    (map Z.of_nat (seq 1 (Z.to_nat (max_page - 1))))
    (kd, kc).

(** [doIClassSimulation] up to its loop.  [stack_KC] and [stack_KD] are
    what the two local arrays hold before they are assigned. *)
Definition doIClassSimulation_start (simulationMode : SimulationMode)
    (emulator : buffer) (reader_mac_buf : option buffer)
    (stack_KC stack_KD : Z -> State X) : Card * Session :=
  let csn_data := load emulator 0 10 in
  (* Construct anticollision-CSN *)
  let anticoll_data := rotateCSN csn_data in
  (* Compute CRC on both CSNs *)
  let anticoll_data := AppendCrc anticoll_data 8 in
  let csn_data := AppendCrc csn_data 8 in
  let full := is_FULL simulationMode in
  let diversified_key_d := if full then load emulator (8 * 3) 8 else repeat 0 8 in
  let diversified_key_c := if full then load emulator (8 * 4) 8 else repeat 0 8 in
  let conf_block :=
    if full then load emulator (8 * 1) 8 ++ [0x00; 0x00] else default_conf_block in
  let card_challenge_data :=
    if full then load emulator (8 * 2) 8 else default_card_challenge_data in
  let conf_block := AppendCrc conf_block 8 in
  (* save card challenge for sim2,4 attack *)
  let reader_mac_buf := save_mac 0 card_challenge_data reader_mac_buf in
  let page_size :=
    if negb (Z.land (nth 5 conf_block 0) 0x80 =? 0) then 256 * 8 else 32 * 8 in
  let personalization_mode := negb (Z.land (nth 7 conf_block 0) 0x80 =? 0) in
  (* chip memory may be divided in 8 pages *)
  let max_page := if negb (Z.land (nth 4 conf_block 0) 0x10 =? 0) then 0 else 7 in
  (* Precalculate the cipher states, feeding it the CC *)
  let kd := set_cell stack_KD 0 (opt_doTagMAC_1 X card_challenge_data diversified_key_d) in
  let kc := set_cell stack_KC 0 (opt_doTagMAC_1 X card_challenge_data diversified_key_c) in
  let states :=
    if full then precalculate emulator page_size max_page kd kc else (kd, kc) in
  let kd := fst states in
  let kc := snd states in
  let ff_data := AppendCrc all_ff 8 in
  let aia_data := AppendCrc all_ff 8 in
  (mkCard simulationMode page_size max_page anticoll_data csn_data conf_block
          ff_data aia_data
          CodeIClassTagSOF
          (CodeIso15693AsTag anticoll_data)
          (CodeIso15693AsTag csn_data)
          (CodeIso15693AsTag conf_block)
          (CodeIso15693AsTag ff_data)
          (CodeIso15693AsTag aia_data),
   mkSession IDLE 0 kc kd (KD, 0) emulator diversified_key_d diversified_key_c KD
             card_challenge_data (CodeIso15693AsTag card_challenge_data)
             personalization_mode reader_mac_buf false).

(** A response built in [data_generic_trace] and encoded on the spot. *)
Definition generic (trace : list Z) : Response :=
  mkResponse (CodeIso15693AsTag trace) trace.

(** The key update loop of the Update command. *)
Definition update_key (personalization_mode : bool) (key data : list Z) : list Z :=
  map (fun i => if personalization_mode
                then nth i data 0
                else Z.lxor (nth i key 0) (nth i data 0))
      (seq 0 8).

(** One turn of the [while (!exitLoop)] loop on the frame
    [GetIso15693CommandFromReader] has returned: [receivedCmd] holds its
    [len] bytes. *)
Definition dispatch (c : Card) (s : Session) (receivedCmd : list Z)
  : Session * Response :=
  let len := Z.of_nat (length receivedCmd) in
  let cmd0 := nth 0 receivedCmd 0 in
  let cmd1 := nth 1 receivedCmd 0 in
  let mode := simulationMode c in
  let selected := ChipState_eqb (chip_state s) SELECTED in
  if (cmd0 =? ICLASS_CMD_ACTALL) && (len =? 1) then
    (* Reader in anticollision phase *)
    if negb (ChipState_eqb (chip_state s) HALTED)
    then (set_chip_state s ACTIVATED, mkResponse (resp_sof c) [])
    else (s, no_response)
  else if (cmd0 =? ICLASS_CMD_READ_OR_IDENTIFY) && (len =? 1) then
    (* Reader asks for anticollision CSN *)
    if selected || ChipState_eqb (chip_state s) ACTIVATED
    then (s, mkResponse (resp_anticoll c) (anticoll_data c))
    else (s, no_response)
  else if (cmd0 =? ICLASS_CMD_SELECT) && (len =? 9) then
    (* Reader selects anticollision CSN. Tag sends the corresponding real CSN *)
    if ChipState_eqb (chip_state s) ACTIVATED || selected then
      if same_bytes 8 (skipn 1 receivedCmd) (anticoll_data c)
      then (set_chip_state s SELECTED, mkResponse (resp_csn c) (csn_data c))
      else (set_chip_state s IDLE, no_response)
    else if ChipState_eqb (chip_state s) HALTED then
      (* RESELECT with CSN *)
      if same_bytes 8 (skipn 1 receivedCmd) (csn_data c)
      then (set_chip_state s SELECTED, mkResponse (resp_csn c) (csn_data c))
      else (s, no_response)
    else (s, no_response)
  else if (cmd0 =? ICLASS_CMD_READ_OR_IDENTIFY) && (len =? 4) then
    (* read block *)
    let blockNo := cmd1 in
    if selected then
      match mode with
      | ICLASS_SIM_MODE_EXIT_AFTER_MAC =>
          (* provide defaults for blocks 0 ... 5 *)
          if blockNo =? 0 then (s, mkResponse (resp_csn c) (csn_data c))
          else if blockNo =? 1 then (s, mkResponse (resp_conf c) (conf_block c))
          else if blockNo =? 2 then
            (* set epurse of sim2,4 attack *)
            (set_reader_mac_buf s (save_mac 0 (card_challenge_data s) (reader_mac_buf s)),
             mkResponse (resp_cc s) (card_challenge_data s))
          else if (blockNo =? 3) || (blockNo =? 4)
          then (s, mkResponse (resp_ff c) (ff_data c))
          else if blockNo =? 5 then (s, mkResponse (resp_aia c) (aia_data c))
          else (s, no_response) (* default: don't respond *)
      | ICLASS_SIM_MODE_FULL =>
          if (blockNo =? 3) || (blockNo =? 4)
          then (s, mkResponse (resp_ff c) (ff_data c))
          else
            (* use data from emulator memory *)
            let data :=
              load (emulator s) (current_page s * page_size c + 8 * blockNo) 8 in
            (s, generic (AppendCrc data 8))
      | ICLASS_SIM_MODE_CSN => (s, no_response)
      end
    else (s, no_response)
  else if ((cmd0 =? ICLASS_CMD_READCHECK_KD) || (cmd0 =? ICLASS_CMD_READCHECK_KC))
          && (cmd1 =? 0x02) && (len =? 2) then
    (* Read e-purse (88 02 || 18 02) *)
    if selected then
      let s :=
        if cmd0 =? ICLASS_CMD_READCHECK_KD
        then set_diversified_key (set_cipher_state s (KD, current_page s)) KD
        else set_diversified_key (set_cipher_state s (KC, current_page s)) KC in
      (s, mkResponse (resp_cc s) (card_challenge_data s))
    else (s, no_response)
  else if ((cmd0 =? ICLASS_CMD_CHECK_KC) || (cmd0 =? ICLASS_CMD_CHECK_KD))
          && (len =? 9) then
    (* Reader random and reader MAC!!! *)
    if selected then
      match mode with
      | ICLASS_SIM_MODE_FULL =>
          (* NR, from reader, is in receivedCmd+1 *)
          let mac := opt_doTagMAC_2 X (deref_cipher_state s) (skipn 1 receivedCmd)
                                    (deref_diversified_key s) in
          (s, generic (firstn 4 mac))
      | ICLASS_SIM_MODE_EXIT_AFTER_MAC =>
          (* save NR and MAC for sim 2,4 *)
          let s := set_reader_mac_buf s (save_mac 8 (skipn 1 receivedCmd) (reader_mac_buf s)) in
          (set_exitLoop s true, no_response)
      | ICLASS_SIM_MODE_CSN => (s, no_response)
      end
    else (s, no_response)
  else if (cmd0 =? ICLASS_CMD_HALT) && (len =? 1) then
    if selected
    then (set_chip_state s HALTED, mkResponse (resp_sof c) []) (* Reader ends the session *)
    else (s, no_response)
  else if is_FULL mode && (cmd0 =? ICLASS_CMD_READ4) && (len =? 4) then
    (* Read 4 blocks *)
    if selected then
      let blockNo := cmd1 in
      let data :=
        load (emulator s) (current_page s * page_size c + blockNo * 8) (8 * 4) in
      (s, generic (AppendCrc data (8 * 4)))
    else (s, no_response)
  else if (cmd0 =? ICLASS_CMD_UPDATE) && ((len =? 12) || (len =? 14)) then
    (* receivedCmd is now UPDATE 1b | ADDRESS 1b | DATA 8b | Signature 4b or CRC 2b *)
    if selected then
      let blockNo := cmd1 in
      let data := firstn 8 (skipn 2 receivedCmd) in
      let page := current_page s * page_size c in
      let s :=
        if blockNo =? 2 then
          (* update e-purse *)
          let s := set_card_challenge_data s data in
          let s := set_resp_cc s (CodeIso15693AsTag (card_challenge_data s)) in
          let s := set_cipher_state_KD s
                     (set_cell (cipher_state_KD s) (current_page s)
                        (opt_doTagMAC_1 X (card_challenge_data s) (diversified_key_d s))) in
          let s := set_cipher_state_KC s
                     (set_cell (cipher_state_KC s) (current_page s)
                        (opt_doTagMAC_1 X (card_challenge_data s) (diversified_key_c s))) in
          if is_FULL mode
          then set_emulator s (store_list (emulator s) (page + 8 * 2) (card_challenge_data s))
          else s
        else if blockNo =? 3 then
          (* update Kd *)
          let s := set_diversified_key_d s
                     (update_key (personalization_mode s) (diversified_key_d s) data) in
          let s := set_cipher_state_KD s
                     (set_cell (cipher_state_KD s) (current_page s)
                        (opt_doTagMAC_1 X (card_challenge_data s) (diversified_key_d s))) in
          if is_FULL mode
          then set_emulator s (store_list (emulator s) (page + 8 * 3) (diversified_key_d s))
          else s
        else if blockNo =? 4 then
          (* update Kc *)
          let s := set_diversified_key_c s
                     (update_key (personalization_mode s) (diversified_key_c s) data) in
          let s := set_cipher_state_KC s
                     (set_cell (cipher_state_KC s) (current_page s)
                        (opt_doTagMAC_1 X (card_challenge_data s) (diversified_key_c s))) in
          if is_FULL mode
          then set_emulator s (store_list (emulator s) (page + 8 * 4) (diversified_key_c s))
          else s
        else if is_FULL mode then
          (* update any other data block *)
          set_emulator s (store_list (emulator s) (page + 8 * blockNo) data)
        else s in
      (s, generic (AppendCrc data 8))
    else (s, no_response)
  else if (cmd0 =? ICLASS_CMD_PAGESEL) && (len =? 4) then
    (* Chips with a single page will not answer to this command *)
    if selected then
      if is_FULL mode && (max_page c >? 0) then
        let s := set_current_page s cmd1 in
        let page := current_page s * page_size c in
        let data := load (emulator s) (page + 8 * 1) 8 in
        let s := set_diversified_key_d s (load (emulator s) (page + 8 * 3) 8) in
        let s := set_diversified_key_c s (load (emulator s) (page + 8 * 4) 8) in
        let s := set_cipher_state s (KD, current_page s) in
        let s := set_personalization_mode s
                   (negb (Z.land (nth 7 data 0) 0x80 =? 0)) in
        (s, generic (AppendCrc data 8))
      else (s, no_response)
    else (s, no_response)
  else if (cmd0 =? 0x26) && (len =? 5) then
    (* standard ISO15693 INVENTORY command. Ignore. *)
    (s, no_response)
  else
    (* don't know how to handle this command: do not respond *)
    (s, no_response).

(** The loop itself, on the frames the reader sends in turn. *)
Fixpoint doIClassSimulation_loop (c : Card) (s : Session) (frames : list (list Z))
  : Session * list Response :=
  match frames with
  | [] => (s, [])
  | receivedCmd :: rest =>
      if exitLoop s then (s, [])
      else
        let (s', r) := dispatch c s receivedCmd in
        let (s'', rs) := doIClassSimulation_loop c s' rest in
        (s'', r :: rs)
  end.


End Dispatcher.

(** *** Vocabulary of the proofs *)

(** The inverse of [rotateCSN]. *)
Definition unrotateCSN (rotatedCSN : list Z) : list Z :=
  map (fun i =>
         u8 (Z.lor (Z.shiftl (nth i rotatedCSN 0) 3)
                   (Z.shiftr (nth ((i + 7) mod 8) rotatedCSN 0) 5)))
      (seq 0 8).

(** A byte string as a number, first byte least significant. *)
Fixpoint value_le (l : list Z) : Z :=
  match l with
  | [] => 0
  | b :: r => b + 256 * value_le r
  end.


(** The default CSN of [SimulateIClass] and its rotated form. *)
Definition default_csn : list Z := [0x03; 0x1f; 0xec; 0x8a; 0xf7; 0xff; 0x12; 0xe0].
Definition default_anticoll : list Z := [0xe0; 0x83; 0x5d; 0xf1; 0xfe; 0x5f; 0x02; 0x7c].

(** [SimulateIClass] with [ICLASS_SIM_MODE_CSN_DEFAULT]: the default CSN
    is copied to the start of the emulator memory and the simulation is
    run in [ICLASS_SIM_MODE_CSN]. *)
Definition SimulateIClass_CSN_DEFAULT (X : External) (emulator : buffer)
    (stack_KC stack_KD : Z -> State X) : Card * Session X :=
  doIClassSimulation_start X ICLASS_SIM_MODE_CSN (store_list emulator 0 default_csn)
                           None stack_KC stack_KD.

(** An emulator memory of eight pages of 256 bytes: the default CSN, a
    configuration block that does not set the single-page bit, e-purse and
    keys of page 0, and e-purse and debit key of page 1. *)
Definition eight_pages : buffer :=
  let m := fun _ => 0 in
  let m := store_list m 0 default_csn in
  let m := store_list m 8 [0x12; 0xFF; 0xFF; 0xFF; 0x6F; 0x1F; 0xFF; 0x3C] in
  let m := store_list m 16 [0xfe; 0xff; 0xff; 0xff; 0xff; 0xff; 0xff; 0xff] in
  let m := store_list m 24 [0x10; 0x11; 0x12; 0x13; 0x14; 0x15; 0x16; 0x17] in
  let m := store_list m 32 [0x20; 0x21; 0x22; 0x23; 0x24; 0x25; 0x26; 0x27] in
  let m := store_list m (256 + 16) [0xe1; 0xe1; 0xe1; 0xe1; 0xe1; 0xe1; 0xe1; 0xe1] in
  store_list m (256 + 24) [0xd1; 0xd1; 0xd1; 0xd1; 0xd1; 0xd1; 0xd1; 0xd1].

(** Modelled from the spec: the CRC of [iso14443crc.c], which is not among
    the given sources, with the iCLASS initial value; it yields the
    trailers [fa 22], [61 10] and [de 64] that [iclass.c] hard-codes for
    the read requests of blocks 1, 2 and 5 (see [IClassFacts.crc_vectors]). *)
Definition UpdateCrc14443 (ch crc : Z) : Z :=
  let ch := u8 (Z.lxor ch (Z.land crc 0x00FF)) in
  let ch := u8 (Z.lxor ch (Z.shiftl ch 4)) in
  u16 (Z.lxor (Z.lxor (Z.lxor (Z.shiftr crc 8) (Z.shiftl ch 8)) (Z.shiftl ch 3))
              (Z.shiftr ch 4)).

Definition ComputeCrc14443_model (CrcType : Z) (Data : list Z) : Z * Z :=
  let wCrc := fold_left (fun crc ch => UpdateCrc14443 ch crc) Data CrcType in
  (Z.land wCrc 0xFF, Z.land (Z.shiftr wCrc 8) 0xFF).

Definition CRC_ICLASS_model : Z := 0xE012.

(** A cipher that keeps what it was given: its state is the pair of
    e-purse and key it was derived from, its MAC the first four bytes of
    e-purse, key and nonce added up bytewise.  It stands in for the real
    cipher where a run of the dispatcher has to be evaluated. *)
Definition symbolic_cipher : External :=
  mkExternal (list Z * list Z)
    (fun epurse key => (epurse, key))
    (fun st nr key =>
       map (fun i => u8 (nth i (fst st) 0 + nth i (snd st) 0 + nth i nr 0)) (seq 0 4))
    ComputeCrc14443_model
    CRC_ICLASS_model.

End IClass.

(** ** The CRC guard of the ISO 15693 tag simulation *)

Module Sim15693.


Section Guard.

(** What [SimTagIso15693] keeps between commands, the array [cmd] apart. *)
Variable TagSession : Type.
(** [Iso15693Crc] of [iso15693tools.c], not among the given sources. *)
Variable Iso15693Crc : list Z -> Z.
(** The rest of the loop body, from [recvLen = 0] on: the command is
    interpreted and a response may be sent.  It reads [cmd] and does not
    write to it. *)
Variable interpret : TagSession -> buffer -> Z -> TagSession * list Z.

(** One turn of the loop of [SimTagIso15693], from the store
    [cmd[cmd_len] = 0] on: [cmd] is the array as
    [GetIso15693CommandFromReader] has left it and [cmd_len] the length it
    has returned.  The result is the session, the array and the response. *)
Definition SimTagIso15693_turn (st : TagSession) (cmd : buffer) (cmd_len : Z)
  : TagSession * buffer * list Z :=
  let cmd := store cmd cmd_len 0 in
  if cmd_len <=? 3 then (st, cmd, [])
  else
    let crc := Iso15693Crc (load cmd 0 (Z.to_nat (cmd_len - 2))) in
    if negb (Z.land crc 0xff =? cmd (cmd_len - 2))
       || negb (Z.shiftr crc 8 =? cmd (cmd_len - 1))
    then (st, cmd, []) (* CrcFail! *)
    else
      let (st, response) := interpret st cmd cmd_len in
      (st, cmd, response).

End Guard.

End Sim15693.


(** * Properties *)

(** ** Buffers *)

Lemma store_same (m : buffer) (i v : Z) : store m i v i = v.
Proof. unfold store. now rewrite Z.eqb_refl. Qed.

Lemma store_other (m : buffer) (i j v : Z) : j <> i -> store m i v j = m j.
Proof. intros H. unfold store. now destruct (Z.eqb_spec j i). Qed.

Lemma store_list_below (l : list Z) :
  forall (m : buffer) (base i : Z), i < base -> store_list m base l i = m i.
Proof.
  induction l as [|v r IH]; intros m base i Hi; simpl; [reflexivity|].
  rewrite IH by lia. apply store_other. lia.
Qed.

Lemma store_list_above (l : list Z) :
  forall (m : buffer) (base i : Z),
    base + Z.of_nat (length l) <= i -> store_list m base l i = m i.
Proof.
  induction l as [|v r IH]; intros m base i Hi; simpl in *; [reflexivity|].
  rewrite IH by lia. apply store_other. lia.
Qed.

Lemma load_succ (m : buffer) (base : Z) (n : nat) :
  load m base (S n) = m base :: load m (base + 1) n.
Proof.
  unfold load. simpl. rewrite Z.add_0_r. f_equal.
  rewrite <- seq_shift, map_map. apply map_ext. intros k. f_equal. lia.
Qed.

Lemma load_ext (m m' : buffer) (base : Z) (n : nat) :
  (forall i, base <= i < base + Z.of_nat n -> m i = m' i) ->
  load m base n = load m' base n.
Proof.
  intros H. unfold load. apply map_ext_in. intros k Hk.
  apply in_seq in Hk. apply H. lia.
Qed.

Lemma load_store_list (l : list Z) :
  forall (m : buffer) (base : Z), load (store_list m base l) base (length l) = l.
Proof.
  induction l as [|v r IH]; intros m base; [reflexivity|].
  simpl length. rewrite load_succ. simpl store_list. f_equal.
  - rewrite store_list_below by lia. apply store_same.
  - apply IH.
Qed.

(** ** Reader direction: encoders, channel and decoder *)

Module Reader15693Facts.

Import ToSendBuffer Reader15693.

(** Case analysis over the 256 byte values. *)
Lemma byte_cases (P : Z -> Prop) :
  Forall P (map Z.of_nat (seq 0 256)) -> forall b, is_byte b -> P b.
Proof.
  intros H b Hb. rewrite Forall_forall in H. apply H.
  apply in_map_iff. exists (Z.to_nat b). split; [unfold is_byte in Hb; lia|].
  apply in_seq. unfold is_byte in Hb. lia.
Qed.

Ltac each_byte tac :=
  match goal with
  | |- forall b, is_byte b -> @?P b => apply (byte_cases P)
  end;
  let l := eval vm_compute in (map Z.of_nat (seq 0 256)) in
  change (map Z.of_nat (seq 0 256)) with l;
  repeat (apply Forall_cons; [tac|]); apply Forall_nil.

(** A property of bytes that a boolean test decides is checked by running
    the test on all of them. *)
Lemma byte_check (f : Z -> bool) :
  forallb f (map Z.of_nat (seq 0 256)) = true -> forall b, is_byte b -> f b = true.
Proof.
  intros H b Hb. rewrite forallb_forall in H. apply H.
  apply in_map_iff. exists (Z.to_nat b). split; [unfold is_byte in Hb; lia|].
  apply in_seq. unfold is_byte in Hb. lia.
Qed.

Lemma list_eqb_eq (a b : list Z) : list_eqb a b = true -> a = b.
Proof.
  revert b. induction a as [|x a IH]; intros [|y b] H; simpl in H;
    try discriminate; [reflexivity|].
  apply andb_prop in H. destruct H as [H1 H2].
  apply Z.eqb_eq in H1. f_equal; auto.
Qed.

(** *** The encoders in closed form *)

Lemma put_fold (f : Z -> list Z) (l : list Z) :
  forall ts,
    fold_left (fun ts b => fold_left (fun ts v => put v ts) (f b) ts) l ts
    = mk (ToSend ts ++ flat_map f l) (ToSendBit ts).
Proof.
  assert (Hin : forall vs ts, fold_left (fun ts v => put v ts) vs ts
                              = mk (ToSend ts ++ vs) (ToSendBit ts)).
  { induction vs as [|v vs IH]; intros [buf bit]; simpl.
    - now rewrite app_nil_r.
    - rewrite IH. simpl. now rewrite <- app_assoc. }
  induction l as [|b l IH]; intros [buf bit]; simpl.
  - now rewrite app_nil_r.
  - rewrite Hin, IH. simpl. now rewrite <- app_assoc.
Qed.

Lemma CodeIso15693AsReader_eq (cmd : list Z) :
  CodeIso15693AsReader cmd = 0x84 :: flat_map symbols4 cmd ++ [0x20].
Proof.
  unfold CodeIso15693AsReader.
  change (fun ts b =>
            fold_left (fun ts j => put (one_of_four (Z.land (Z.shiftr b j) 3)) ts)
                      [0; 2; 4; 6] ts)
    with (fun ts b => fold_left (fun ts v => put v ts) (symbols4 b) ts).
  rewrite put_fold. reflexivity.
Qed.

Lemma or_last_snoc (l : list Z) (x v : Z) : or_last (l ++ [x]) v = l ++ [Z.lor x v].
Proof.
  unfold or_last. rewrite rev_app_distr. simpl. now rewrite rev_involutive.
Qed.

(** Stuffing bits never touches the bytes that were complete before. *)
Lemma stuff_bits_prefix (bits : list Z) :
  forall (l l' : list Z) (k : Z),
    l' <> [] \/ k >= 8 ->
    stuff_bits bits (mk (l ++ l') k)
    = mk (l ++ ToSend (stuff_bits bits (mk l' k))) (ToSendBit (stuff_bits bits (mk l' k))).
Proof.
  induction bits as [|b bits IH]; intros l l' k Hk; [reflexivity|].
  unfold stuff_bits in *. simpl fold_left.
  assert (Hstep : exists l'' k'', l'' <> [] /\
            ToSendStuffBit b (mk l' k) = mk l'' k'' /\
            ToSendStuffBit b (mk (l ++ l') k) = mk (l ++ l'') k'').
  { unfold ToSendStuffBit. simpl.
    destruct (k >=? 8) eqn:Ek; simpl.
    - destruct (b =? 0); simpl.
      + exists (l' ++ [0]), (0 + 1). repeat split.
        * now destruct l'.
        * now rewrite app_assoc.
      + exists (l' ++ [Z.lor 0 (Z.shiftl 1 (7 - 0))]), (0 + 1). repeat split.
        * now destruct l'.
        * now rewrite or_last_snoc.
        * now rewrite or_last_snoc, <- app_assoc.
    - destruct Hk as [Hl|Hk]; [|lia].
      destruct (exists_last Hl) as (init & x & ->).
      destruct (b =? 0); simpl.
      + exists (init ++ [x]), (k + 1). repeat split. now destruct init.
      + exists (init ++ [Z.lor x (Z.shiftl 1 (7 - k))]), (k + 1). repeat split.
        * now destruct init.
        * now rewrite or_last_snoc.
        * now rewrite app_assoc, or_last_snoc, <- app_assoc. }
  destruct Hstep as (l'' & k'' & Hne & -> & ->).
  apply IH. now left.
Qed.

Lemma slots_fold (b : Z) (js : list Z) :
  forall ts,
    fold_left (fun ts j =>
                 if b =? j
                 then ToSendStuffBit 1 (ToSendStuffBit 0 ts)
                 else ToSendStuffBit 0 (ToSendStuffBit 0 ts)) js ts
    = stuff_bits (flat_map (fun j => [0; if b =? j then 1 else 0]) js) ts.
Proof.
  induction js as [|j js IH]; intros ts; [reflexivity|].
  simpl. rewrite IH. unfold stuff_bits. simpl. now destruct (b =? j).
Qed.

Lemma block256_bits (b : Z) :
  is_byte b ->
  ToSendBit (stuff_bits (slots256 b) ToSendReset) = 8
  /\ ToSend_bits (block256 b) = slots256 b.
Proof.
  intros Hb.
  pose proof (byte_check
    (fun b => (ToSendBit (stuff_bits (slots256 b) ToSendReset) =? 8)
              && list_eqb (ToSend_bits (block256 b)) (slots256 b))
    ltac:(vm_compute; reflexivity) b Hb) as H.
  cbv beta in H. apply andb_prop in H. destruct H as [H1 H2].
  split; [now apply Z.eqb_eq|now apply list_eqb_eq].
Qed.

Lemma pulse_position_eq (b : Z) (l : list Z) :
  is_byte b -> pulse_position b (mk l 8) = mk (l ++ block256 b) 8.
Proof.
  intros Hb. unfold pulse_position. rewrite slots_fold.
  pose proof (stuff_bits_prefix (slots256 b) l [] 8) as H.
  rewrite app_nil_r in H. unfold slots256 in H at 1. rewrite H by (right; lia).
  change (mk [] 8) with ToSendReset.
  rewrite (proj1 (block256_bits b Hb)). reflexivity.
Qed.

Lemma fold_left_cons {A B} (f : A -> B -> A) (x : B) (l : list B) (a : A) :
  fold_left f (x :: l) a = fold_left f l (f a x).
Proof. reflexivity. Qed.

Lemma flat_map_head {A B} (f : A -> list B) (x : A) (l : list A) :
  flat_map f (x :: l) = f x ++ flat_map f l.
Proof. reflexivity. Qed.

Lemma CodeIso15693AsReader256_eq (cmd : list Z) :
  Forall is_byte cmd ->
  CodeIso15693AsReader256 cmd = 0x81 :: flat_map block256 cmd ++ [0x20].
Proof.
  intros Hcmd. unfold CodeIso15693AsReader256.
  assert (H : forall l,
             fold_left (fun ts b => pulse_position b ts) cmd (mk l 8)
             = mk (l ++ flat_map block256 cmd) 8).
  { induction Hcmd as [|b cmd Hb Hcmd IH]; intros l.
    - cbn [fold_left flat_map]. now rewrite app_nil_r.
    - rewrite fold_left_cons, flat_map_head, pulse_position_eq by assumption.
      rewrite IH. now rewrite <- app_assoc. }
  change (put 129 ToSendReset) with (mk [129] 8).
  rewrite H. reflexivity.
Qed.

(** *** The decoder on the samples of a frame *)

Lemma DecodeSamples_app (l1 l2 : list Z) :
  forall d,
    DecodeSamples (l1 ++ l2) d
    = (let (d1, gotFrame) := DecodeSamples l1 d in
       if gotFrame then (d1, true) else DecodeSamples l2 d1).
Proof.
  induction l1 as [|b l1 IH]; intros d; cbn [DecodeSamples app]; [reflexivity|].
  destruct (Handle15693SampleFromReader b d) as [d' g].
  destruct g; [reflexivity|apply IH].
Qed.

Lemma samples_app (l1 l2 : list Z) : samples (l1 ++ l2) = samples l1 ++ samples l2.
Proof. unfold samples, ToSend_bits. now rewrite !flat_map_app. Qed.

(** Unmodulated carrier takes the decoder out of [STATE_READER_UNSYNCD]
    and keeps it waiting for the first falling edge. *)
Lemma idle_carrier (idle : nat) (rest : list Z) (out : buffer) (max_len : Z) :
  DecodeSamples (repeat 1 (S idle) ++ rest) (DecodeReaderInit out max_len)
  = DecodeSamples rest
      (set_state (DecodeReaderInit out max_len)
                 STATE_READER_AWAIT_1ST_FALLING_EDGE_OF_SOF).
Proof.
  change (repeat 1 (S idle) ++ rest) with (1 :: (repeat 1 idle ++ rest)).
  cbn [DecodeSamples]. change (Handle15693SampleFromReader 1 (DecodeReaderInit out max_len))
    with (set_state (DecodeReaderInit out max_len)
                    STATE_READER_AWAIT_1ST_FALLING_EDGE_OF_SOF, false).
  cbn iota. induction idle as [|n IH]; [reflexivity|].
  cbn [repeat app DecodeSamples]. exact IH.
Qed.

(** The decoder stores a byte when it is complete. *)
Lemma store_byte_fits (st : ReaderState) (c : ReaderCoding) (sr bc k max pc s1 s2 : Z)
    (out : buffer) :
  k + 1 <= max ->
  store_byte (mkDecodeReader st c sr bc k max pc s1 s2 out)
  = mkDecodeReader st c sr bc (k + 1) max pc s1 s2 (store out k sr).
Proof.
  intros H. unfold store_byte. cbn.
  destruct (Z.gtb_spec (k + 1) max); [lia|reflexivity].
Qed.

(** Case analysis over an initial segment of the integers. *)
Lemma below_cases (n : nat) (P : Z -> Prop) :
  Forall P (map Z.of_nat (seq 0 n)) -> forall q, 0 <= q < Z.of_nat n -> P q.
Proof.
  intros H q Hq. rewrite Forall_forall in H. apply H.
  apply in_map_iff. exists (Z.to_nat q). split; [lia|]. apply in_seq. lia.
Qed.

Ltac each_below n tac :=
  match goal with
  | |- forall q, 0 <= q < _ -> @?P q =>
      let H := fresh in
      assert (H : Forall P (map Z.of_nat (seq 0 n)));
      [ let l := eval vm_compute in (map Z.of_nat (seq 0 n)) in
        change (map Z.of_nat (seq 0 n)) with l;
        repeat (apply Forall_cons; [tac|]); apply Forall_nil
      | intros q Hq; apply (below_cases n P H); lia ]
  end.

(** One symbol period of 1 out of 4 coding that does not complete a byte. *)
Lemma slot4 (q : Z) :
  0 <= q < 15 ->
  forall x, is_bit x ->
  forall (sr k max : Z) (out : buffer) (s1 s2 : Z),
    DecodeSamples (slot x) (in4 sr q k max out s1 s2)
    = (in4 (after4 q sr x) (q + 1) k max out 4 (if x =? 0 then 4 else 0), false).
Proof.
  revert q.
  each_below 15%nat ltac:(intros x [-> | ->] sr k max out s1 s2; reflexivity).
Qed.

(** One slot of 1 out of 256 coding that does not complete a byte. *)
Lemma slot256 (q : Z) :
  0 <= q < 255 ->
  forall x, is_bit x ->
  forall (sr k max : Z) (out : buffer) (s1 s2 : Z),
    DecodeSamples (slot x) (in256 sr q k max out s1 s2)
    = (in256 (after256 q sr x) (q + 1) k max out 4 (if x =? 0 then 4 else 0), false).
Proof.
  revert q.
  each_below 255%nat ltac:(intros x [-> | ->] sr k max out s1 s2; reflexivity).
Qed.

(** The symbol period that completes a byte, when the byte fits. *)
Lemma last_slot4 (x : Z) (sr k max : Z) (out : buffer) (s1 s2 : Z) :
  is_bit x -> k + 1 <= max ->
  DecodeSamples (slot x) (in4 sr 15 k max out s1 s2)
  = (in4 0 0 (k + 1) max (store out k (after4 15 sr x)) 4 (if x =? 0 then 4 else 0),
     false).
Proof.
  intros Hx Hk.
  transitivity
    (set_shiftReg
       (set_bitCount
          (store_byte
             (mkDecodeReader STATE_READER_RECEIVE_DATA_1_OUT_OF_4 CODING_1_OUT_OF_4
                (after4 15 sr x) 15 k max 0 4 (if x =? 0 then 4 else 0) out)) 0) 0,
     false).
  - destruct Hx as [-> | ->]; reflexivity.
  - now rewrite store_byte_fits.
Qed.

Lemma last_slot256 (x : Z) (sr k max : Z) (out : buffer) (s1 s2 : Z) :
  is_bit x -> k + 1 <= max ->
  DecodeSamples (slot x) (in256 sr 255 k max out s1 s2)
  = (in256 (after256 255 sr x) 0 (k + 1) max (store out k (after256 255 sr x))
           4 (if x =? 0 then 4 else 0),
     false).
Proof.
  intros Hx Hk.
  transitivity
    (let d := store_byte
                (mkDecodeReader STATE_READER_RECEIVE_DATA_1_OUT_OF_256
                   CODING_1_OUT_OF_256
                   (after256 255 sr x) 255 k max 0 4 (if x =? 0 then 4 else 0) out) in
     set_bitCount d (u8 (bitCount d + 1)),
     false).
  - destruct Hx as [-> | ->]; reflexivity.
  - now rewrite store_byte_fits.
Qed.

Lemma shifts_snoc (f : Z -> Z -> Z -> Z) (flags : list Z) (x : Z) :
  forall q sr,
    shifts f q (flags ++ [x]) sr
    = f (q + Z.of_nat (length flags)) (shifts f q flags sr) x.
Proof.
  induction flags as [|y flags IH]; intros q sr.
  - cbn [app shifts length Z.of_nat]. now rewrite Z.add_0_r.
  - cbn [app shifts length]. rewrite IH. f_equal. lia.
Qed.

(** A run of symbol periods within a byte, for either coding. *)
Section Run.

Variable inS : Z -> Z -> Z -> Z -> buffer -> Z -> Z -> DecodeReader.
Variable f : Z -> Z -> Z -> Z.
Variable last : Z.

Hypothesis slot_ok :
  forall q, 0 <= q < last ->
  forall x, is_bit x ->
  forall (sr k max : Z) (out : buffer) (s1 s2 : Z),
    DecodeSamples (slot x) (inS sr q k max out s1 s2)
    = (inS (f q sr x) (q + 1) k max out 4 (if x =? 0 then 4 else 0), false).

Lemma run_slots (flags : list Z) :
  Forall is_bit flags ->
  forall (q sr k max : Z) (out : buffer) (s1 s2 : Z) (rest : list Z),
    0 <= q -> q + Z.of_nat (length flags) <= last ->
    exists s1' s2',
      DecodeSamples (flat_map slot flags ++ rest) (inS sr q k max out s1 s2)
      = DecodeSamples rest
          (inS (shifts f q flags sr) (q + Z.of_nat (length flags)) k max out s1' s2').
Proof.
  induction 1 as [|x flags Hx Hflags IH]; intros q sr k max out s1 s2 rest Hq Hlen.
  - exists s1, s2. cbn [flat_map app length Z.of_nat shifts]. now rewrite Z.add_0_r.
  - cbn [length] in Hlen.
    destruct (IH (q + 1) (f q sr x) k max out 4 (if x =? 0 then 4 else 0) rest)
      as (s1' & s2' & E); [lia|lia|].
    exists s1', s2'.
    rewrite flat_map_head, <- app_assoc, DecodeSamples_app.
    rewrite slot_ok by (assumption || lia).
    rewrite E. cbn [shifts length]. do 2 f_equal. lia.
Qed.

End Run.

(** *** A command byte *)

Lemma pulse4_bit (b q : Z) : is_bit (pulse4 b q).
Proof. unfold pulse4, is_bit. destruct (_ =? _); auto. Qed.

Lemma pulse256_bit (b j : Z) : is_bit (pulse256 b j).
Proof. unfold pulse256, is_bit. destruct (_ =? _); auto. Qed.

Lemma symbols4_slots (b : Z) :
  is_byte b -> samples (symbols4 b) = flat_map slot (pulses4 b).
Proof.
  intros Hb. apply list_eqb_eq.
  exact (byte_check
           (fun b => list_eqb (samples (symbols4 b)) (flat_map slot (pulses4 b)))
           ltac:(vm_compute; reflexivity) b Hb).
Qed.

Lemma block256_slots (b : Z) :
  is_byte b -> samples (block256 b) = flat_map slot (pulses256 b).
Proof.
  intros Hb. unfold samples. rewrite (proj2 (block256_bits b Hb)).
  unfold slots256, pulses256.
  induction (map Z.of_nat (seq 0 256)) as [|j js IH]; [reflexivity|].
  rewrite !flat_map_head, map_cons, flat_map_head, flat_map_app, IH.
  reflexivity.
Qed.

(** The pauses of a byte in 1 out of 4 coding put the byte together in
    the shift register. *)
Lemma assembled4 (b : Z) : is_byte b -> shifts after4 0 (pulses4 b) 0 = b.
Proof.
  intros Hb. apply Z.eqb_eq.
  exact (byte_check (fun b => shifts after4 0 (pulses4 b) 0 =? b)
                    ltac:(vm_compute; reflexivity) b Hb).
Qed.

(** The one pause of a byte in 1 out of 256 coding leaves its position,
    which is the byte, in the shift register. *)
Lemma assembled256 (b : Z) :
  is_byte b -> forall sr, shifts after256 0 (pulses256 b) sr = b.
Proof.
  revert b. each_byte ltac:(intros sr; vm_compute; reflexivity).
Qed.

Lemma pulses4_last (b : Z) :
  pulses4 b = map (pulse4 b) (map Z.of_nat (seq 0 15)) ++ [pulse4 b 15].
Proof. reflexivity. Qed.

Lemma pulses256_last (b : Z) :
  pulses256 b = map (pulse256 b) (map Z.of_nat (seq 0 255)) ++ [pulse256 b 255].
Proof.
  unfold pulses256. change 256%nat with (255 + 1)%nat.
  rewrite seq_app, !map_app. reflexivity.
Qed.

Lemma Forall_bits (g : Z -> Z) (l : list Z) :
  (forall q, is_bit (g q)) -> Forall is_bit (map g l).
Proof. intros H. induction l; constructor; auto. Qed.

(** A byte of 1 out of 4 coding is decoded and stored. *)
Lemma byte4_stored (b : Z) (k max : Z) (out : buffer) (s1 s2 : Z) (rest : list Z) :
  is_byte b -> k + 1 <= max ->
  exists s1' s2',
    DecodeSamples (samples (symbols4 b) ++ rest) (in4 0 0 k max out s1 s2)
    = DecodeSamples rest (in4 0 0 (k + 1) max (store out k b) s1' s2').
Proof.
  intros Hb Hk. rewrite symbols4_slots by assumption.
  pose proof (assembled4 b Hb) as A.
  rewrite pulses4_last in A |- *. rewrite shifts_snoc in A.
  rewrite flat_map_app, <- app_assoc.
  set (init := map (pulse4 b) (map Z.of_nat (seq 0 15))) in *.
  assert (L : 0 + Z.of_nat (length init) = 15)
    by (subst init; rewrite !length_map, length_seq; lia).
  rewrite L in A.
  destruct (run_slots in4 after4 15 slot4 init
              (Forall_bits _ _ (pulse4_bit b)) 0 0 k max out s1 s2
              (flat_map slot [pulse4 b 15] ++ rest)) as (t1 & t2 & E); [lia|lia|].
  rewrite E, L. cbn [flat_map]. rewrite app_nil_r, DecodeSamples_app.
  rewrite last_slot4 by (apply pulse4_bit || assumption).
  rewrite A. eauto.
Qed.

(** A byte of 1 out of 256 coding is decoded and stored. *)
Lemma byte256_stored (b : Z) (sr k max : Z) (out : buffer) (s1 s2 : Z)
    (rest : list Z) :
  is_byte b -> k + 1 <= max ->
  exists s1' s2',
    DecodeSamples (samples (block256 b) ++ rest) (in256 sr 0 k max out s1 s2)
    = DecodeSamples rest (in256 b 0 (k + 1) max (store out k b) s1' s2').
Proof.
  intros Hb Hk. rewrite block256_slots by assumption.
  pose proof (assembled256 b Hb sr) as A.
  rewrite pulses256_last in A |- *. rewrite shifts_snoc in A.
  rewrite flat_map_app, <- app_assoc.
  set (init := map (pulse256 b) (map Z.of_nat (seq 0 255))) in *.
  assert (L : 0 + Z.of_nat (length init) = 255)
    by (subst init; rewrite !length_map, length_seq; lia).
  rewrite L in A.
  destruct (run_slots in256 after256 255 slot256 init
              (Forall_bits _ _ (pulse256_bit b)) 0 sr k max out s1 s2
              (flat_map slot [pulse256 b 255] ++ rest)) as (t1 & t2 & E); [lia|lia|].
  rewrite E, L. cbn [flat_map]. rewrite app_nil_r, DecodeSamples_app.
  rewrite last_slot256 by (apply pulse256_bit || assumption).
  rewrite A. eauto.
Qed.

(** *** A frame *)

Lemma data4_stored (max : Z) (cmd : list Z) :
  Forall is_byte cmd ->
  forall (k : Z) (out : buffer) (s1 s2 : Z) (rest : list Z),
    k + Z.of_nat (length cmd) <= max ->
    exists s1' s2',
      DecodeSamples (samples (flat_map symbols4 cmd) ++ rest) (in4 0 0 k max out s1 s2)
      = DecodeSamples rest
          (in4 0 0 (k + Z.of_nat (length cmd)) max (store_list out k cmd) s1' s2').
Proof.
  induction 1 as [|b cmd Hb Hcmd IH]; intros k out s1 s2 rest Hk.
  - exists s1, s2. cbn [flat_map length Z.of_nat store_list].
    now rewrite Z.add_0_r.
  - cbn [length] in Hk. rewrite flat_map_head, samples_app, <- app_assoc.
    destruct (byte4_stored b k max out s1 s2 (samples (flat_map symbols4 cmd) ++ rest))
      as (t1 & t2 & E); [assumption|lia|].
    destruct (IH (k + 1) (store out k b) t1 t2 rest) as (u1 & u2 & E'); [lia|].
    exists u1, u2. rewrite E, E'. cbn [store_list length]. do 2 f_equal. lia.
Qed.

Lemma data256_stored (max : Z) (cmd : list Z) :
  Forall is_byte cmd ->
  forall (sr k : Z) (out : buffer) (s1 s2 : Z) (rest : list Z),
    k + Z.of_nat (length cmd) <= max ->
    exists sr' s1' s2',
      DecodeSamples (samples (flat_map block256 cmd) ++ rest)
                    (in256 sr 0 k max out s1 s2)
      = DecodeSamples rest
          (in256 sr' 0 (k + Z.of_nat (length cmd)) max (store_list out k cmd) s1' s2').
Proof.
  induction 1 as [|b cmd Hb Hcmd IH]; intros sr k out s1 s2 rest Hk.
  - exists sr, s1, s2. cbn [flat_map length Z.of_nat store_list].
    now rewrite Z.add_0_r.
  - cbn [length] in Hk. rewrite flat_map_head, samples_app, <- app_assoc.
    destruct (byte256_stored b sr k max out s1 s2
                (samples (flat_map block256 cmd) ++ rest))
      as (t1 & t2 & E); [assumption|lia|].
    destruct (IH b (k + 1) (store out k b) t1 t2 rest) as (sr' & u1 & u2 & E'); [lia|].
    exists sr', u1, u2. rewrite E, E'. cbn [store_list length]. do 2 f_equal. lia.
Qed.

(** The samples of a frame's data and EOF begin with unmodulated carrier. *)
Lemma slots_head (flags rest : list Z) :
  flags <> [] -> exists t, flat_map slot flags ++ rest = 1 :: t.
Proof.
  destruct flags as [|x flags]; [congruence|]. intros _.
  rewrite flat_map_head.
  change (slot x) with (1 :: 1 :: 1 :: 1 :: carrier x).
  cbn [app]. eauto.
Qed.

Lemma data4_head (cmd rest : list Z) :
  Forall is_byte cmd -> cmd <> [] ->
  exists t, samples (flat_map symbols4 cmd) ++ rest = 1 :: t.
Proof.
  intros Hcmd Hne. destruct Hcmd as [|b cmd Hb Hcmd]; [congruence|].
  rewrite flat_map_head, samples_app, symbols4_slots, <- app_assoc by assumption.
  apply slots_head. rewrite pulses4_last. now destruct (map _ _).
Qed.

Lemma data256_head (cmd rest : list Z) :
  Forall is_byte cmd -> cmd <> [] ->
  exists t, samples (flat_map block256 cmd) ++ rest = 1 :: t.
Proof.
  intros Hcmd Hne. destruct Hcmd as [|b cmd Hb Hcmd]; [congruence|].
  rewrite flat_map_head, samples_app, block256_slots, <- app_assoc by assumption.
  apply slots_head. rewrite pulses256_last. now destruct (map _ _).
Qed.

(** The SOF of either coding, up to the sample that opens the data phase. *)
Lemma sof4_sync (out : buffer) (max_len : Z) (rest : list Z) :
  DecodeSamples (samples [0x84] ++ 1 :: rest)
    (set_state (DecodeReaderInit out max_len) STATE_READER_AWAIT_1ST_FALLING_EDGE_OF_SOF)
  = DecodeSamples (1 :: rest) (in4 0 0 0 max_len out 0 0).
Proof. reflexivity. Qed.

Lemma sof256_sync (out : buffer) (max_len : Z) (rest : list Z) :
  DecodeSamples (samples [0x81] ++ 1 :: rest)
    (set_state (DecodeReaderInit out max_len) STATE_READER_AWAIT_1ST_FALLING_EDGE_OF_SOF)
  = DecodeSamples (1 :: rest) (in256 0 0 0 max_len out 0 0).
Proof. reflexivity. Qed.

(** The EOF after at least one byte. *)
Lemma eof4 (n max : Z) (out : buffer) (s1 s2 : Z) :
  0 < n ->
  DecodeSamples (samples [0x20]) (in4 0 0 n max out s1 s2)
  = (mkDecodeReader STATE_READER_UNSYNCD CODING_1_OUT_OF_4 0 1 n max 0 0 4 out, true).
Proof. intros Hn. destruct n as [|p|p]; try lia. reflexivity. Qed.

Lemma eof256 (sr n max : Z) (out : buffer) (s1 s2 : Z) :
  0 < n ->
  DecodeSamples (samples [0x20]) (in256 sr 0 n max out s1 s2)
  = (mkDecodeReader STATE_READER_UNSYNCD CODING_1_OUT_OF_256 sr 1 n max 0 0 4 out, true).
Proof. intros Hn. destruct n as [|p|p]; try lia. reflexivity. Qed.

Lemma frame4_decoded (cmd : list Z) (idle : nat) (out : buffer) (max_len : Z) :
  cmd <> [] -> Forall is_byte cmd -> Z.of_nat (length cmd) <= max_len ->
  exists d,
    DecodeSamples (air idle (CodeIso15693AsReader cmd)) (DecodeReaderInit out max_len)
    = (d, true)
    /\ state d = STATE_READER_UNSYNCD /\ received d = cmd.
Proof.
  intros Hne Hcmd Hlen. rewrite CodeIso15693AsReader_eq.
  change (air idle (0x84 :: flat_map symbols4 cmd ++ [0x20]))
    with (repeat 1 (S idle) ++ samples ([0x84] ++ flat_map symbols4 cmd ++ [0x20])).
  rewrite idle_carrier, !samples_app.
  destruct (data4_head cmd (samples [0x20]) Hcmd Hne) as (t & Et).
  rewrite Et, sof4_sync, <- Et.
  destruct (data4_stored max_len cmd Hcmd 0 out 0 0 (samples [0x20]))
    as (s1 & s2 & E); [lia|].
  rewrite E, eof4 by (destruct cmd; [congruence|cbn [length]; lia]).
  eexists. split; [reflexivity|]. split; [reflexivity|].
  unfold received. cbn [byteCount output].
  replace (Z.to_nat (0 + Z.of_nat (length cmd))) with (length cmd) by lia.
  apply load_store_list.
Qed.

Lemma frame256_decoded (cmd : list Z) (idle : nat) (out : buffer) (max_len : Z) :
  cmd <> [] -> Forall is_byte cmd -> Z.of_nat (length cmd) <= max_len ->
  exists d,
    DecodeSamples (air idle (CodeIso15693AsReader256 cmd)) (DecodeReaderInit out max_len)
    = (d, true)
    /\ state d = STATE_READER_UNSYNCD /\ received d = cmd.
Proof.
  intros Hne Hcmd Hlen. rewrite CodeIso15693AsReader256_eq by assumption.
  change (air idle (0x81 :: flat_map block256 cmd ++ [0x20]))
    with (repeat 1 (S idle) ++ samples ([0x81] ++ flat_map block256 cmd ++ [0x20])).
  rewrite idle_carrier, !samples_app.
  destruct (data256_head cmd (samples [0x20]) Hcmd Hne) as (t & Et).
  rewrite Et, sof256_sync, <- Et.
  destruct (data256_stored max_len cmd Hcmd 0 0 out 0 0 (samples [0x20]))
    as (sr & s1 & s2 & E); [lia|].
  rewrite E, eof256 by (destruct cmd; [congruence|cbn [length]; lia]).
  eexists. split; [reflexivity|]. split; [reflexivity|].
  unfold received. cbn [byteCount output].
  replace (Z.to_nat (0 + Z.of_nat (length cmd))) with (length cmd) by lia.
  apply load_store_list.
Qed.

(** C4.  Round trip in the reader direction.  A command of 1 to 32 bytes
    encoded by [CodeIso15693AsReader] (1 out of 4) or by
    [CodeIso15693AsReader256] (1 out of 256), put on the air after
    unmodulated carrier and sampled four times per transmitted bit, is
    decoded by [Handle15693SampleFromReader] into a complete frame that
    holds exactly the bytes of the command, whenever the receive buffer has
    room for them. *)
Theorem reader_roundtrip (cmd : list Z) (idle : nat) (out : buffer) (max_len : Z) :
  (1 <= length cmd <= 32)%nat ->
  Forall is_byte cmd ->
  Z.of_nat (length cmd) <= max_len ->
  (let r := DecodeSamples (air idle (CodeIso15693AsReader cmd))
                          (DecodeReaderInit out max_len) in
   snd r = true /\ received (fst r) = cmd)
  /\
  (let r := DecodeSamples (air idle (CodeIso15693AsReader256 cmd))
                          (DecodeReaderInit out max_len) in
   snd r = true /\ received (fst r) = cmd).
Proof.
  intros Hlen Hcmd Hmax.
  assert (Hne : cmd <> []) by (destruct cmd; [cbn in Hlen; lia|congruence]).
  destruct (frame4_decoded cmd idle out max_len Hne Hcmd Hmax) as (d4 & E4 & _ & R4).
  destruct (frame256_decoded cmd idle out max_len Hne Hcmd Hmax) as (d256 & E256 & _ & R256).
  cbv zeta. rewrite E4, E256. cbn [fst snd]. auto.
Qed.


(** *** When the decoder reports a frame *)

Lemma accumulate_keeps (bit : Z) (d : DecodeReader) :
  state (accumulate bit d) = state d
  /\ bitCount (accumulate bit d) = bitCount d
  /\ byteCount (accumulate bit d) = byteCount d
  /\ byteCountMax (accumulate bit d) = byteCountMax d
  /\ posCount (accumulate bit d) = posCount d
  /\ output (accumulate bit d) = output d.
Proof.
  unfold accumulate.
  destruct (posCount d =? 1), (posCount d <=? 4), (posCount d =? 5); cbn; auto 10.
Qed.

Lemma store_byte_unsyncd (d : DecodeReader) :
  state d = STATE_READER_UNSYNCD -> state (store_byte d) = STATE_READER_UNSYNCD.
Proof.
  intros H. unfold store_byte. cbv zeta.
  destruct (_ >? _); cbn; auto.
Qed.

Ltac fields :=
  cbn [fst snd andb negb
       state Coding shiftReg bitCount byteCount byteCountMax posCount sum1 sum2 output
       set_state set_Coding set_shiftReg set_bitCount set_byteCount set_posCount
       set_sum1 set_sum2 set_output DecodeReaderReset] in *.

Ltac split_ifs :=
  repeat (fields;
          match goal with
          | |- context [if ?c then _ else _] => destruct c eqn:?
          | |- context [match ?c with CODING_1_OUT_OF_4 => _ | _ => _ end] =>
              destruct c eqn:?
          end); fields.

(** [Handle15693SampleFromReader] returns true only in one of its two
    data states, on the sample for which the End-Of-Frame test of the
    decoder succeeds, and with at least one byte counted; the decoder is
    then back in [STATE_READER_UNSYNCD].  When that test succeeds with no
    byte counted, it returns false and the decoder is in
    [STATE_READER_UNSYNCD] all the same. *)
Lemma eof_sample_completes_frame (bit : Z) (d : DecodeReader) :
  let r := Handle15693SampleFromReader bit d in
  (snd r = true ->
   receiving d = true /\ eof_pattern bit d = true /\ byteCount d <> 0
   /\ state (fst r) = STATE_READER_UNSYNCD)
  /\
  (receiving d = true -> eof_pattern bit d = true -> byteCount d = 0 ->
   snd r = false /\ state (fst r) = STATE_READER_UNSYNCD).
Proof.
  cbv zeta. unfold Handle15693SampleFromReader, receiving, eof_pattern.
  destruct (state d) eqn:Hst; cbv zeta.
  1-6: split; [|discriminate]; split_ifs; discriminate.
  all: set (d1 := accumulate (if bit =? 0 then 0 else 1)
                             (set_posCount d (posCount d + 1)));
    destruct (accumulate_keeps (if bit =? 0 then 0 else 1)
                               (set_posCount d (posCount d + 1)))
      as (A1 & A2 & A3 & A4 & A5 & A6);
    fold d1 in A1, A2, A3, A4, A5, A6; fields;
    destruct (posCount d1 =? 8); cbn [andb];
    [|fields; split; discriminate];
    destruct (sum1 d1 <=? 1), (sum2 d1 >=? 3); cbn [andb]; fields;
    rewrite ?A3;
    destruct (Z.eqb_spec (byteCount d) 0) as [E0|E0]; fields.
  all: split; intros; try discriminate; split_ifs; try discriminate;
    repeat split; try congruence;
    try (apply store_byte_unsyncd; split_ifs; reflexivity).
Qed.

Lemma reader_roundtrip_witness :
  ((1 <= length [0xA5; 0x3C] <= 32)%nat
   /\ Forall is_byte [0xA5; 0x3C]
   /\ Z.of_nat (length [0xA5; 0x3C]) <= 45)
  /\ received (fst (DecodeSamples (air 0 (CodeIso15693AsReader [0xA5; 0x3C]))
                                  (DecodeReaderInit (fun _ => 0) 45)))
     = [0xA5; 0x3C]
  /\ received (fst (DecodeSamples (air 0 (CodeIso15693AsReader256 [0xA5; 0x3C]))
                                  (DecodeReaderInit (fun _ => 0) 45)))
     = [0xA5; 0x3C].
Proof.
  assert (H : (1 <= length [0xA5; 0x3C] <= 32)%nat
              /\ Forall is_byte [0xA5; 0x3C]
              /\ Z.of_nat (length [0xA5; 0x3C]) <= 45).
  { split; [cbn; lia|]. split; [|cbn; lia].
    repeat constructor; unfold is_byte; lia. }
  split; [exact H|].
  destruct H as (H1 & H2 & H3).
  destruct (reader_roundtrip [0xA5; 0x3C] 0 (fun _ => 0) 45 H1 H2 H3)
    as ((_ & R4) & (_ & R256)).
  split; assumption.
Defined.

(** *** A frame one byte longer than the capacity *)

Lemma store_byte_over (st : ReaderState) (c : ReaderCoding) (sr bc k pc s1 s2 : Z)
    (out : buffer) :
  store_byte (mkDecodeReader st c sr bc k k pc s1 s2 out)
  = mkDecodeReader STATE_READER_UNSYNCD c sr bc (k + 1) k pc s1 s2 (store out k sr).
Proof.
  unfold store_byte. cbn.
  destruct (Z.gtb_spec (k + 1) k); [reflexivity|lia].
Qed.

(** The symbol period that completes the byte at the capacity. *)
Lemma last_slot4_over (x : Z) (sr k : Z) (out : buffer) (s1 s2 : Z) :
  is_bit x ->
  DecodeSamples (slot x) (in4 sr 15 k k out s1 s2)
  = (mkDecodeReader STATE_READER_UNSYNCD CODING_1_OUT_OF_4 0 0 (k + 1) k 0
       4 (if x =? 0 then 4 else 0) (store out k (after4 15 sr x)),
     false).
Proof.
  intros Hx.
  transitivity
    (set_shiftReg
       (set_bitCount
          (store_byte
             (mkDecodeReader STATE_READER_RECEIVE_DATA_1_OUT_OF_4 CODING_1_OUT_OF_4
                (after4 15 sr x) 15 k k 0 4 (if x =? 0 then 4 else 0) out)) 0) 0,
     false).
  - destruct Hx as [-> | ->]; reflexivity.
  - now rewrite store_byte_over.
Qed.

Lemma last_slot256_over (x : Z) (sr k : Z) (out : buffer) (s1 s2 : Z) :
  is_bit x ->
  DecodeSamples (slot x) (in256 sr 255 k k out s1 s2)
  = (mkDecodeReader STATE_READER_UNSYNCD CODING_1_OUT_OF_256 (after256 255 sr x) 0
       (k + 1) k 0 4 (if x =? 0 then 4 else 0) (store out k (after256 255 sr x)),
     false).
Proof.
  intros Hx.
  transitivity
    (let d := store_byte
                (mkDecodeReader STATE_READER_RECEIVE_DATA_1_OUT_OF_256
                   CODING_1_OUT_OF_256
                   (after256 255 sr x) 255 k k 0 4 (if x =? 0 then 4 else 0) out) in
     set_bitCount d (u8 (bitCount d + 1)),
     false).
  - destruct Hx as [-> | ->]; reflexivity.
  - now rewrite store_byte_over.
Qed.

(** The byte at the capacity is stored all the same, and the decoder gives up. *)
Lemma byte4_over (b : Z) (k : Z) (out : buffer) (s1 s2 : Z) (rest : list Z) :
  is_byte b ->
  exists sr' bc' s1' s2',
    DecodeSamples (samples (symbols4 b) ++ rest) (in4 0 0 k k out s1 s2)
    = DecodeSamples rest
        (mkDecodeReader STATE_READER_UNSYNCD CODING_1_OUT_OF_4 sr' bc' (k + 1) k 0
           s1' s2' (store out k b)).
Proof.
  intros Hb. rewrite symbols4_slots by assumption.
  pose proof (assembled4 b Hb) as A.
  rewrite pulses4_last in A |- *. rewrite shifts_snoc in A.
  rewrite flat_map_app, <- app_assoc.
  set (init := map (pulse4 b) (map Z.of_nat (seq 0 15))) in *.
  assert (L : 0 + Z.of_nat (length init) = 15)
    by (subst init; rewrite !length_map, length_seq; lia).
  rewrite L in A.
  destruct (run_slots in4 after4 15 slot4 init
              (Forall_bits _ _ (pulse4_bit b)) 0 0 k k out s1 s2
              (flat_map slot [pulse4 b 15] ++ rest)) as (t1 & t2 & E); [lia|lia|].
  rewrite E, L. cbn [flat_map]. rewrite app_nil_r, DecodeSamples_app.
  rewrite last_slot4_over by apply pulse4_bit.
  rewrite A. eauto.
Qed.

Lemma byte256_over (b : Z) (sr k : Z) (out : buffer) (s1 s2 : Z) (rest : list Z) :
  is_byte b ->
  exists sr' bc' s1' s2',
    DecodeSamples (samples (block256 b) ++ rest) (in256 sr 0 k k out s1 s2)
    = DecodeSamples rest
        (mkDecodeReader STATE_READER_UNSYNCD CODING_1_OUT_OF_256 sr' bc' (k + 1) k 0
           s1' s2' (store out k b)).
Proof.
  intros Hb. rewrite block256_slots by assumption.
  pose proof (assembled256 b Hb sr) as A.
  rewrite pulses256_last in A |- *. rewrite shifts_snoc in A.
  rewrite flat_map_app, <- app_assoc.
  set (init := map (pulse256 b) (map Z.of_nat (seq 0 255))) in *.
  assert (L : 0 + Z.of_nat (length init) = 255)
    by (subst init; rewrite !length_map, length_seq; lia).
  rewrite L in A.
  destruct (run_slots in256 after256 255 slot256 init
              (Forall_bits _ _ (pulse256_bit b)) 0 sr k k out s1 s2
              (flat_map slot [pulse256 b 255] ++ rest)) as (t1 & t2 & E); [lia|lia|].
  rewrite E, L. cbn [flat_map]. rewrite app_nil_r, DecodeSamples_app.
  rewrite last_slot256_over by apply pulse256_bit.
  rewrite A. eauto.
Qed.

(** The EOF finds the decoder unsynced: it reports no frame and stores
    nothing; the decoder takes its pause for the start of a SOF. *)
Lemma eof_unsynced (c : ReaderCoding) (sr bc n max s1 s2 : Z) (out : buffer) :
  DecodeSamples (samples [0x20])
    (mkDecodeReader STATE_READER_UNSYNCD c sr bc n max 0 s1 s2 out)
  = (mkDecodeReader STATE_READER_AWAIT_2ND_FALLING_EDGE_OF_SOF c sr bc n max 24
       s1 s2 out, false).
Proof. vm_compute. reflexivity. Qed.

Lemma load_store_above (out : buffer) (l : list Z) (v : Z) :
  load (store (store_list out 0 l) (Z.of_nat (length l)) v) 0 (length l) = l.
Proof.
  transitivity (load (store_list out 0 l) 0 (length l)); [|apply load_store_list].
  apply load_ext. intros i Hi. apply store_other. lia.
Qed.

(** Whatever the capacity, a command one byte longer than it has its last
    byte stored at the index equal to the capacity, behind the bytes
    before it, in both codings; no frame is reported. *)
Lemma reader_byte_past_capacity (cmd : list Z) (b : Z) (idle : nat) (out : buffer) :
  Forall is_byte cmd -> is_byte b ->
  let max_len := Z.of_nat (length cmd) in
  (let r := DecodeSamples (air idle (CodeIso15693AsReader (cmd ++ [b])))
                          (DecodeReaderInit out max_len) in
   snd r = false /\ byteCount (fst r) = max_len + 1
   /\ output (fst r) max_len = b /\ load (output (fst r)) 0 (length cmd) = cmd)
  /\
  (let r := DecodeSamples (air idle (CodeIso15693AsReader256 (cmd ++ [b])))
                          (DecodeReaderInit out max_len) in
   snd r = false /\ byteCount (fst r) = max_len + 1
   /\ output (fst r) max_len = b /\ load (output (fst r)) 0 (length cmd) = cmd).
Proof.
  intros Hcmd Hb. cbv zeta.
  assert (Hall : Forall is_byte (cmd ++ [b]))
    by (apply Forall_app; split; [assumption|constructor; [assumption|constructor]]).
  assert (Hne : cmd ++ [b] <> []) by (destruct cmd; discriminate).
  split.
  - rewrite CodeIso15693AsReader_eq.
    change (air idle (0x84 :: flat_map symbols4 (cmd ++ [b]) ++ [0x20]))
      with (repeat 1 (S idle)
            ++ samples ([0x84] ++ flat_map symbols4 (cmd ++ [b]) ++ [0x20])).
    rewrite idle_carrier, !samples_app.
    destruct (data4_head (cmd ++ [b]) (samples [0x20]) Hall Hne) as (t & Et).
    rewrite Et, sof4_sync, <- Et.
    rewrite flat_map_app, samples_app, <- app_assoc. cbn [flat_map].
    rewrite app_nil_r.
    destruct (data4_stored (Z.of_nat (length cmd)) cmd Hcmd 0 out 0 0
                (samples (symbols4 b) ++ samples [0x20])) as (s1 & s2 & E); [lia|].
    rewrite E. cbn [Z.add].
    destruct (byte4_over b (Z.of_nat (length cmd)) (store_list out 0 cmd) s1 s2
                (samples [0x20]) Hb) as (sr' & bc' & t1 & t2 & E').
    rewrite E'.
    rewrite eof_unsynced. cbn [fst snd byteCount output].
    split; [reflexivity|]. split; [reflexivity|].
    split; [unfold store; now rewrite Z.eqb_refl|apply load_store_above].
  - rewrite CodeIso15693AsReader256_eq by assumption.
    change (air idle (0x81 :: flat_map block256 (cmd ++ [b]) ++ [0x20]))
      with (repeat 1 (S idle)
            ++ samples ([0x81] ++ flat_map block256 (cmd ++ [b]) ++ [0x20])).
    rewrite idle_carrier, !samples_app.
    destruct (data256_head (cmd ++ [b]) (samples [0x20]) Hall Hne) as (t & Et).
    rewrite Et, sof256_sync, <- Et.
    rewrite flat_map_app, samples_app, <- app_assoc. cbn [flat_map].
    rewrite app_nil_r.
    destruct (data256_stored (Z.of_nat (length cmd)) cmd Hcmd 0 0 out 0 0
                (samples (block256 b) ++ samples [0x20])) as (sr & s1 & s2 & E); [lia|].
    rewrite E. cbn [Z.add].
    destruct (byte256_over b sr (Z.of_nat (length cmd)) (store_list out 0 cmd) s1 s2
                (samples [0x20]) Hb) as (sr' & bc' & t1 & t2 & E').
    rewrite E'.
    rewrite eof_unsynced. cbn [fst snd byteCount output].
    split; [reflexivity|]. split; [reflexivity|].
    split; [unfold store; now rewrite Z.eqb_refl|apply load_store_above].
Qed.

(** *** Counters and writes of the decoder stay in range *)

Ltac props :=
  repeat match goal with
         | H : (_ <? _) = true |- _ => apply Z.ltb_lt in H
         | H : (_ <? _) = false |- _ => apply Z.ltb_ge in H
         | H : (_ <=? _) = true |- _ => apply Z.leb_le in H
         | H : (_ <=? _) = false |- _ => apply Z.leb_gt in H
         | H : (_ >? _) = true |- _ => rewrite Z.gtb_ltb in H; apply Z.ltb_lt in H
         | H : (_ >? _) = false |- _ => rewrite Z.gtb_ltb in H; apply Z.ltb_ge in H
         | H : (_ >=? _) = true |- _ => rewrite Z.geb_leb in H; apply Z.leb_le in H
         | H : (_ >=? _) = false |- _ => rewrite Z.geb_leb in H; apply Z.leb_gt in H
         | H : (_ =? _) = true |- _ => apply Z.eqb_eq in H
         | H : (_ =? _) = false |- _ => apply Z.eqb_neq in H
         end.

Lemma accumulate_sums (bit : Z) (d : DecodeReader) :
  is_bit bit -> 1 <= posCount d <= 8 ->
  0 <= sum1 d <= 4 -> 0 <= sum2 d <= 4 ->
  (2 <= posCount d <= 5 -> sum1 d <= posCount d - 1) ->
  (6 <= posCount d -> sum2 d <= posCount d - 5) ->
  0 <= sum1 (accumulate bit d) <= 4
  /\ 0 <= sum2 (accumulate bit d) <= 4
  /\ (1 <= posCount d <= 4 -> sum1 (accumulate bit d) <= posCount d)
  /\ (5 <= posCount d -> sum2 (accumulate bit d) <= posCount d - 4).
Proof.
  intros [-> | ->] Hp H1 H2 H1' H2'; unfold accumulate;
    destruct (posCount d =? 1) eqn:?, (posCount d <=? 4) eqn:?,
             (posCount d =? 5) eqn:?; props; cbn; lia.
Qed.

(** [bit = !!bit] *)
Lemma bit_norm (bit : Z) : is_bit (if bit =? 0 then 0 else 1).
Proof. destruct (bit =? 0); [left|right]; reflexivity. Qed.

Ltac goal_fields :=
  cbv beta iota zeta delta
      [fst snd andb negb
       state Coding shiftReg bitCount byteCount byteCountMax posCount sum1 sum2 output
       set_state set_Coding set_shiftReg set_bitCount set_byteCount set_posCount
       set_sum1 set_sum2 set_output DecodeReaderReset store_byte].

Ltac cases :=
  goal_fields;
  repeat (match goal with
          | |- context [if ?c then _ else _] => destruct c eqn:?
          | |- context [match ?c with CODING_1_OUT_OF_4 => _ | _ => _ end] =>
              destruct c eqn:?
          end; goal_fields).

Ltac in_range :=
  match goal with Q := _ |- _ => subst Q end;
  unfold counters_in_range, same_outside; goal_fields;
  split; [lia|]; split; [reflexivity|];
  intros j Hj;
  first [reflexivity
        | unfold store;
          match goal with
          | |- context [j =? ?i] => destruct (Z.eqb_spec j i); [lia|reflexivity]
          end].

(** One sample keeps the counters in their ranges and writes, if it
    writes, at an index from 0 to [byteCountMax]. *)
Lemma Handle15693SampleFromReader_in_range (bit : Z) (d : DecodeReader) :
  counters_in_range d ->
  counters_in_range (fst (Handle15693SampleFromReader bit d))
  /\ same_outside d (fst (Handle15693SampleFromReader bit d)).
Proof.
  destruct d as [st co sr bc by_ mx pc s1 s2 out].
  intros H.
  set (Q := fun d' => counters_in_range d'
                      /\ same_outside (mkDecodeReader st co sr bc by_ mx pc s1 s2 out) d').
  change (Q (fst (Handle15693SampleFromReader bit
                    (mkDecodeReader st co sr bc by_ mx pc s1 s2 out)))).
  unfold counters_in_range in H.
  cbn [state byteCount byteCountMax posCount sum1 sum2] in H.
  destruct H as (Hp & Hm & Hb & Hs1 & Hs2 & Hs).
  unfold Handle15693SampleFromReader.
  destruct st; cbv zeta; cbn [state].
  1-6: cases; props; in_range.
  all: destruct Hs as (H7 & Hbm & Hs1' & Hs2');
    match goal with
    | |- context [accumulate ?b ?d0] =>
        pose proof (accumulate_keeps b d0) as (A1 & A2 & A3 & A4 & A5 & A6);
        pose proof (accumulate_sums b d0 (bit_norm bit)) as S;
        set (d1 := accumulate b d0) in *; clearbody d1;
        cbn [state bitCount byteCount byteCountMax posCount sum1 sum2 output set_posCount]
          in A1, A2, A3, A4, A5, A6, S;
        destruct d1 as [st1 co1 sr1 bc1 by1 mx1 pc1 s11 s21 out1]
    end;
    cbn [state bitCount byteCount byteCountMax posCount sum1 sum2 output] in *; subst;
    destruct S as (S1 & S2 & S1' & S2'); [lia..|];
    cases; props; in_range.
Qed.

Lemma reader_DecodeSamples_in_range (bits : list Z) (d : DecodeReader) :
  counters_in_range d ->
  counters_in_range (fst (DecodeSamples bits d))
  /\ same_outside d (fst (DecodeSamples bits d)).
Proof.
  revert d. induction bits as [|b bits IH]; intros d H; cbn [DecodeSamples].
  - split; [assumption|]. split; reflexivity.
  - destruct (Handle15693SampleFromReader_in_range b d H) as (H1 & Hmax & Hout).
    destruct (Handle15693SampleFromReader b d) as [d' [|]]; cbn [fst] in *.
    + split; [assumption|]. split; assumption.
    + destruct (IH d' H1) as (H2 & Hmax' & Hout').
      split; [assumption|]. split; [congruence|].
      intros j Hj. rewrite Hout' by (rewrite Hmax; exact Hj). apply Hout, Hj.
Qed.

(** Whatever the samples, the counters of a decoder started by
    [DecodeReaderInit] stay small, [byteCount] never exceeds the capacity
    by more than one, and no cell of the buffer is written outside the
    indices 0 to [max_len]. *)
Lemma reader_counters_small (bits : list Z) (out : buffer) (max_len : Z) :
  0 <= max_len ->
  let d := fst (DecodeSamples bits (DecodeReaderInit out max_len)) in
  0 <= posCount d <= 35
  /\ 0 <= byteCount d <= max_len + 1
  /\ 0 <= sum1 d <= 4
  /\ 0 <= sum2 d <= 4
  /\ forall j, j < 0 \/ max_len < j -> output d j = out j.
Proof.
  intros Hmax. cbv zeta.
  destruct (reader_DecodeSamples_in_range bits (DecodeReaderInit out max_len))
    as ((Hp & _ & Hb & Hs1 & Hs2 & _) & Hm & Hout).
  { unfold counters_in_range. cbn. lia. }
  cbn [DecodeReaderInit byteCountMax output] in Hm, Hout. rewrite Hm in Hb. auto.
Qed.

(** *** Frames are completed by the End-Of-Frame pattern on the air *)

Lemma carrier_seen_app (a b : list Z) :
  carrier_seen (a ++ b) = carrier_seen a + carrier_seen b.
Proof. unfold carrier_seen. rewrite filter_app, length_app. lia. Qed.

Lemma carrier_seen_one (b : Z) : carrier_seen [b] = if b =? 0 then 0 else 1.
Proof. unfold carrier_seen. cbn. now destruct (b =? 0). Qed.

Lemma firstn_short (sym : list Z) (b : Z) :
  (length sym < 4)%nat ->
  firstn 4 (sym ++ [b]) = sym ++ [b] /\ firstn 4 sym = sym.
Proof.
  intros H. split.
  - apply firstn_all2. rewrite length_app. cbn. lia.
  - apply firstn_all2. lia.
Qed.

Lemma firstn_long (sym : list Z) (b : Z) :
  (4 <= length sym)%nat -> firstn 4 (sym ++ [b]) = firstn 4 sym.
Proof.
  intros H. rewrite firstn_app.
  replace (4 - length sym)%nat with 0%nat by lia. cbn [firstn]. apply app_nil_r.
Qed.

Lemma skipn_long (sym : list Z) (b : Z) :
  (4 <= length sym)%nat -> skipn 4 (sym ++ [b]) = skipn 4 sym ++ [b].
Proof.
  intros H. rewrite skipn_app.
  replace (4 - length sym)%nat with 0%nat by lia. reflexivity.
Qed.

(** The sums after one more sample of the symbol period. *)
Lemma accumulate_tracks (b : Z) (d : DecodeReader) (sym : list Z) :
  Z.of_nat (length sym) + 1 = posCount d ->
  (2 <= posCount d -> sum1 d = carrier_seen (firstn 4 sym)) ->
  (6 <= posCount d -> sum2 d = carrier_seen (skipn 4 sym)) ->
  let d' := accumulate (if b =? 0 then 0 else 1) d in
  sum1 d' = carrier_seen (firstn 4 (sym ++ [b]))
  /\ (5 <= posCount d -> sum2 d' = carrier_seen (skipn 4 (sym ++ [b]))).
Proof.
  intros Hl H1 H2. cbv zeta. unfold accumulate.
  destruct (Z.eqb_spec (posCount d) 1) as [E1|E1].
  { cbn [sum1 sum2 set_sum1]. destruct sym; [|cbn [length] in Hl; lia].
    cbn [app firstn]. rewrite carrier_seen_one. split; [reflexivity|lia]. }
  destruct (Z.leb_spec (posCount d) 4) as [E4|E4].
  { cbn [sum1 sum2 set_sum1].
    destruct (firstn_short sym b ltac:(lia)) as (F1 & F2).
    rewrite F1, carrier_seen_app, carrier_seen_one, H1, F2 by lia.
    split; [reflexivity|lia]. }
  destruct (Z.eqb_spec (posCount d) 5) as [E5|E5].
  { cbn [sum1 sum2 set_sum2].
    rewrite firstn_long, skipn_long by lia.
    rewrite H1 by lia. split; [reflexivity|]. intros _.
    rewrite skipn_all2 by lia. cbn [app]. now rewrite carrier_seen_one. }
  cbn [sum1 sum2 set_sum2].
  rewrite firstn_long, skipn_long by lia.
  rewrite H1 by lia. split; [reflexivity|]. intros _.
  rewrite carrier_seen_app, carrier_seen_one, H2 by lia. reflexivity.
Qed.

Ltac tracked :=
  unfold tracks, receiving; goal_fields;
  first
    [ (* not in a data state *)
      intros _ R; discriminate R
    | (* a symbol period begins *)
      intros _ _; split; [lia|];
      match goal with
      | |- exists older sym, ?h = _ /\ _ =>
          exists h, (@nil Z); rewrite app_nil_r;
          split; [reflexivity|]; split; [reflexivity|]; split; intros; lia
      end ].

(** One sample keeps the registers in step with the samples. *)
Lemma Handle15693SampleFromReader_tracks (hist : list Z) (bit : Z) (d : DecodeReader) :
  tracks hist d ->
  snd (Handle15693SampleFromReader bit d) = false ->
  tracks (hist ++ [bit]) (fst (Handle15693SampleFromReader bit d)).
Proof.
  destruct d as [st co sr bc by_ mx pc s1 s2 out].
  intros H.
  set (Q := fun r : DecodeReader * bool =>
              snd r = false -> tracks (hist ++ [bit]) (fst r)).
  change (Q (Handle15693SampleFromReader bit
               (mkDecodeReader st co sr bc by_ mx pc s1 s2 out))).
  unfold Handle15693SampleFromReader.
  destruct st; cbv zeta; cbn [state].
  1-4: cases; subst Q; cbv beta; cbn [fst snd]; tracked.
  1-2: cases; subst Q; cbv beta; cbn [fst snd];
    first [tracked
          | unfold tracks, receiving; goal_fields; intros _ _; split; [lia|];
            exists hist, [bit]; split; [reflexivity|]; split; [reflexivity|];
            split; [|intros; lia]; intros _; cbn [firstn];
            rewrite carrier_seen_one;
            match goal with
            | E : (if ?x =? 0 then false else true) = true |- _ =>
                destruct (x =? 0); [discriminate E|reflexivity]
            end].
  all: destruct (H eq_refl) as (Hp & older & sym & Eh & El & Hs1 & Hs2);
    cbn [posCount sum1 sum2] in Hp, El, Hs1, Hs2;
    match goal with
    | |- context [accumulate ?b ?d0] =>
        pose proof (accumulate_keeps b d0) as (A1 & A2 & A3 & A4 & A5 & A6);
        pose proof (accumulate_tracks bit d0 sym) as T;
        set (d1 := accumulate b d0) in *; clearbody d1;
        cbn [state bitCount byteCount byteCountMax posCount sum1 sum2 output set_posCount]
          in A1, A2, A3, A4, A5, A6, T;
        destruct d1 as [st1 co1 sr1 bc1 by1 mx1 pc1 s11 s21 out1]
    end;
    cbn [state bitCount byteCount byteCountMax posCount sum1 sum2 output] in *; subst;
    destruct T as (T1 & T2); [lia|intros; apply Hs1; lia|intros; apply Hs2; lia|];
    cases; subst Q; cbv beta; cbn [fst snd];
    first [ intros R; discriminate R
          | tracked
          | unfold tracks, receiving; goal_fields; intros _ _; props;
            split; [lia|];
            exists older, (sym ++ [bit]); rewrite app_assoc;
            split; [reflexivity|];
            split; [rewrite length_app; cbn [length]; lia|];
            split; [intros _; exact T1|exact T2] ].
Qed.

(** The decoder keeps in step with the samples as long as it reports no frame. *)
Lemma DecodeSamples_tracks (l : list Z) :
  forall hist d,
    tracks hist d -> snd (DecodeSamples l d) = false ->
    tracks (hist ++ l) (fst (DecodeSamples l d)).
Proof.
  induction l as [|b l IH]; intros hist d H R; cbn [DecodeSamples] in *.
  - now rewrite app_nil_r.
  - pose proof (Handle15693SampleFromReader_tracks hist b d H) as T.
    destruct (Handle15693SampleFromReader b d) as [d' [|]]; cbn [fst snd] in *;
      [discriminate R|].
    change (hist ++ b :: l) with (hist ++ [b] ++ l). rewrite app_assoc.
    apply IH; auto.
Qed.

(** What the decoder takes for the End-Of-Frame is the pattern on the air. *)
Lemma eof_pattern_symbol (hist : list Z) (bit : Z) (d : DecodeReader) :
  tracks hist d -> receiving d = true ->
  (eof_pattern bit d = true
   <-> posCount d = 7 /\ exists older w, hist ++ [bit] = older ++ w /\ eof_symbol w).
Proof.
  intros H R. destruct (H R) as (Hp & older & sym & Eh & El & Hs1 & Hs2).
  unfold eof_pattern. cbv zeta.
  pose proof (accumulate_keeps (if bit =? 0 then 0 else 1)
                (set_posCount d (posCount d + 1))) as (_ & _ & _ & _ & A5 & _).
  pose proof (accumulate_tracks bit (set_posCount d (posCount d + 1)) sym) as T.
  cbn [posCount sum1 sum2 set_posCount] in A5, T. cbv zeta in T.
  destruct T as (T1 & T2); [lia|intros; apply Hs1; lia|intros; apply Hs2; lia|].
  rewrite A5, T1.
  assert (L : length (sym ++ [bit]) = Z.to_nat (posCount d + 1))
    by (rewrite length_app; cbn [length]; lia).
  split.
  - intros E. apply andb_prop in E. destruct E as [E E3].
    apply andb_prop in E. destruct E as [E8 E1].
    apply Z.eqb_eq in E8. rewrite T2 in E3 by lia.
    apply Z.leb_le in E1. rewrite Z.geb_leb in E3. apply Z.leb_le in E3.
    split; [lia|]. exists older, (sym ++ [bit]).
    split; [rewrite Eh; now rewrite app_assoc|].
    split; [rewrite L; lia|]. split; assumption.
  - intros (E7 & older' & w & Ew & Lw & W1 & W2).
    assert (w = sym ++ [bit]).
    { rewrite Eh, <- app_assoc in Ew.
      assert (Hl : length older = length older').
      { apply (f_equal (@length Z)) in Ew. rewrite !length_app in Ew.
        cbn [length] in Ew. lia. }
      apply (f_equal (skipn (length older))) in Ew.
      rewrite skipn_app, skipn_all, Nat.sub_diag in Ew. cbn [skipn app] in Ew.
      rewrite Hl, skipn_app, skipn_all, Nat.sub_diag in Ew. cbn [skipn app] in Ew.
      now symmetry. }
    subst w. rewrite T2 by lia.
    rewrite E7. cbn [Z.add Pos.add Z.eqb Pos.eqb andb].
    apply andb_true_intro. split; [now apply Z.leb_le|].
    rewrite Z.geb_leb. now apply Z.leb_le.
Qed.

(** The sample that completes a frame leaves [byteCount] as it is. *)
Lemma frame_keeps_byteCount (bit : Z) (d : DecodeReader) :
  snd (Handle15693SampleFromReader bit d) = true ->
  byteCount (fst (Handle15693SampleFromReader bit d)) = byteCount d.
Proof.
  destruct d as [st co sr bc by_ mx pc s1 s2 out].
  unfold Handle15693SampleFromReader.
  destruct st; cbv zeta; cbn [state].
  1-6: cases; cbn [fst snd]; intros R; first [discriminate R|reflexivity].
  all: match goal with
       | |- context [accumulate ?b ?d0] =>
           pose proof (accumulate_keeps b d0) as (A1 & A2 & A3 & A4 & A5 & A6);
           set (d1 := accumulate b d0) in *; clearbody d1;
           cbn [state bitCount byteCount byteCountMax posCount sum1 sum2 output set_posCount]
             in A1, A2, A3, A4, A5, A6;
           destruct d1 as [st1 co1 sr1 bc1 by1 mx1 pc1 s11 s21 out1]
       end;
    cbn [state bitCount byteCount byteCountMax posCount sum1 sum2 output] in *; subst;
    cases; cbn [fst snd]; intros R; first [discriminate R|reflexivity].
Qed.

Lemma tracks_init (out : buffer) (max_len : Z) : tracks [] (DecodeReaderInit out max_len).
Proof. intros R. discriminate R. Qed.

(** A frame is reported on the last sample of an End-Of-Frame pattern. *)
Lemma frame_after_eof (l : list Z) :
  forall hist d,
    tracks hist d -> snd (DecodeSamples l d) = true ->
    exists l1 bit l2 older w,
      l = l1 ++ bit :: l2
      /\ snd (DecodeSamples l1 d) = false
      /\ DecodeSamples (l1 ++ [bit]) d = DecodeSamples l d
      /\ hist ++ l1 ++ [bit] = older ++ w /\ eof_symbol w
      /\ byteCount (fst (DecodeSamples l d)) <> 0
      /\ state (fst (DecodeSamples l d)) = STATE_READER_UNSYNCD.
Proof.
  induction l as [|b l IH]; intros hist d H R; cbn [DecodeSamples] in *;
    [discriminate R|].
  pose proof (Handle15693SampleFromReader_tracks hist b d H) as T.
  pose proof (eof_sample_completes_frame b d) as F. cbv zeta in F.
  pose proof (frame_keeps_byteCount b d) as B.
  destruct (Handle15693SampleFromReader b d) as [d' [|]] eqn:E; cbn [fst snd] in *.
  - destruct (proj1 F eq_refl) as (Rd & Ep & Hb & Hst).
    apply (eof_pattern_symbol hist b d H Rd) in Ep.
    destruct Ep as (_ & older & w & Ew & Hw).
    exists [], b, l, older, w. cbn [app DecodeSamples]. rewrite E.
    rewrite B by reflexivity. cbn [fst snd]. repeat split; auto; apply Hw.
  - destruct (IH (hist ++ [b]) d' (T eq_refl) R)
      as (l1 & bit & l2 & older & w & El & R1 & E1 & Ew & Hw & Hb & Hst).
    exists (b :: l1), bit, l2, older, w. cbn [app DecodeSamples]. rewrite E.
    rewrite <- app_assoc in Ew. cbn [app] in Ew.
    rewrite <- El. repeat split; auto; apply Hw.
Qed.

(** A frame without bytes: the SOF followed by the EOF. *)
Lemma empty_frame_prefix (idle n : nat) (l : list Z) :
  firstn (idle + S n) (repeat 1 (S idle) ++ l) = repeat 1 (S idle) ++ firstn n l
  /\ skipn (idle + S n) (repeat 1 (S idle) ++ l) = skipn n l.
Proof.
  rewrite firstn_app, skipn_app, repeat_length.
  replace (idle + S n - S idle)%nat with n by lia.
  rewrite firstn_all2 by (rewrite repeat_length; lia).
  rewrite skipn_all2 by (rewrite repeat_length; lia).
  split; reflexivity.
Qed.

Lemma empty_frame_dropped (idle : nat) (out : buffer) (max_len : Z)
    (frame : list Z) :
  frame = CodeIso15693AsReader [] \/ frame = CodeIso15693AsReader256 [] ->
  let s := air idle frame in
  let r := DecodeSamples (firstn (idle + 49) s) (DecodeReaderInit out max_len) in
  eof_symbol (skipn (idle + 41) (firstn (idle + 49) s))
  /\ snd r = false /\ state (fst r) = STATE_READER_UNSYNCD
  /\ snd (DecodeSamples s (DecodeReaderInit out max_len)) = false.
Proof.
  intros H. cbv zeta. unfold air.
  rewrite (proj1 (empty_frame_prefix idle 48 _)).
  rewrite (proj2 (empty_frame_prefix idle 40 _)).
  rewrite !idle_carrier.
  destruct H as [-> | ->]; vm_compute; repeat split; intros X; discriminate X.
Qed.

(** C8.  Whenever the decoder, started by [DecodeReaderInit], reports a
    frame on a sample stream, the eight samples up to and including the
    one it reports on are an End-Of-Frame pattern on the air (pause in the
    first half of the symbol period, carrier in the second), no frame was
    reported before, at least one byte has been decoded, and the decoder
    is back in [STATE_READER_UNSYNCD].  Whenever a stream ends in an
    End-Of-Frame pattern that fills a symbol period of the decoder in a
    data state with no byte decoded, no frame is reported and the decoder
    is in [STATE_READER_UNSYNCD].  The frame without bytes of either
    coding, SOF directly followed by EOF, is such a stream: up to the
    sample that completes its EOF symbol the decoder reports nothing and
    ends in [STATE_READER_UNSYNCD], and on the whole stream it reports
    nothing. *)
Theorem reader_frame_complete (samples : list Z) (out : buffer) (max_len : Z) :
  let init := DecodeReaderInit out max_len in
  (snd (DecodeSamples samples init) = true ->
   exists before w bit after,
     samples = before ++ w ++ bit :: after
     /\ eof_symbol (w ++ [bit])
     /\ snd (DecodeSamples (before ++ w) init) = false
     /\ DecodeSamples (before ++ w ++ [bit]) init = DecodeSamples samples init
     /\ byteCount (fst (DecodeSamples samples init)) <> 0
     /\ state (fst (DecodeSamples samples init)) = STATE_READER_UNSYNCD)
  /\ (forall before w bit,
        samples = before ++ w ++ [bit] ->
        eof_symbol (w ++ [bit]) ->
        let d := fst (DecodeSamples (before ++ w) init) in
        snd (DecodeSamples (before ++ w) init) = false ->
        receiving d = true -> posCount d = 7 -> byteCount d = 0 ->
        snd (DecodeSamples samples init) = false
        /\ state (fst (DecodeSamples samples init)) = STATE_READER_UNSYNCD)
  /\ (forall idle frame,
        frame = CodeIso15693AsReader [] \/ frame = CodeIso15693AsReader256 [] ->
        let s := air idle frame in
        let r := DecodeSamples (firstn (idle + 49) s) init in
        eof_symbol (skipn (idle + 41) (firstn (idle + 49) s))
        /\ snd r = false /\ state (fst r) = STATE_READER_UNSYNCD
        /\ snd (DecodeSamples s init) = false).
Proof.
  cbv zeta. split; [|split].
  - intros R.
    destruct (frame_after_eof samples [] _ (tracks_init out max_len) R)
      as (l1 & bit & l2 & older & w & El & R1 & E1 & Ew & Hw & Hb & Hst).
    cbn [app] in Ew.
    assert (Hne : w <> []) by (intros ->; destruct Hw as (Hl & _); discriminate Hl).
    destruct (exists_last Hne) as (w7 & b' & ->).
    rewrite app_assoc in Ew. apply app_inj_tail in Ew. destruct Ew as (-> & <-).
    exists older, w7, bit, l2.
    rewrite <- !app_assoc in *. cbn [app] in *.
    repeat split; auto; apply Hw.
  - intros before w bit -> Hw R Rd Hp Hb.
    rewrite app_assoc, DecodeSamples_app.
    pose proof (DecodeSamples_tracks (before ++ w) [] _ (tracks_init out max_len) R) as T.
    cbn [app] in T.
    destruct (DecodeSamples (before ++ w) (DecodeReaderInit out max_len)) as [d r].
    cbn [fst snd] in *. subst r. cbn [DecodeSamples].
    assert (Ep : eof_pattern bit d = true).
    { apply (eof_pattern_symbol (before ++ w) bit d T Rd). split; [exact Hp|].
      exists before, (w ++ [bit]). split; [now rewrite app_assoc|exact Hw]. }
    pose proof (proj2 (eof_sample_completes_frame bit d) Rd Ep Hb) as (F1 & F2).
    destruct (Handle15693SampleFromReader bit d) as [d' r]. cbn [fst snd] in *.
    subst r. cbn [fst snd]. auto.
  - intros idle frame H. apply empty_frame_dropped. exact H.
Qed.

Lemma reader_frame_complete_witness :
  snd (DecodeSamples (air 0 (CodeIso15693AsReader [0xA5]))
                     (DecodeReaderInit (fun _ => 0) 45)) = true
  /\ exists before w bit after,
       air 0 (CodeIso15693AsReader [0xA5]) = before ++ w ++ bit :: after
       /\ eof_symbol (w ++ [bit])
       /\ snd (DecodeSamples (before ++ w) (DecodeReaderInit (fun _ => 0) 45)) = false
       /\ DecodeSamples (before ++ w ++ [bit]) (DecodeReaderInit (fun _ => 0) 45)
          = DecodeSamples (air 0 (CodeIso15693AsReader [0xA5]))
                          (DecodeReaderInit (fun _ => 0) 45)
       /\ byteCount (fst (DecodeSamples (air 0 (CodeIso15693AsReader [0xA5]))
                                        (DecodeReaderInit (fun _ => 0) 45))) <> 0
       /\ state (fst (DecodeSamples (air 0 (CodeIso15693AsReader [0xA5]))
                                    (DecodeReaderInit (fun _ => 0) 45)))
          = STATE_READER_UNSYNCD.
Proof.
  split; [vm_compute; reflexivity|].
  apply (proj1 (reader_frame_complete (air 0 (CodeIso15693AsReader [0xA5]))
                                       (fun _ => 0) 45)).
  vm_compute; reflexivity.
Defined.

End Reader15693Facts.

(** ** The tag-direction decoder *)

Module Tag15693Facts.

Import Tag15693.

Lemma tag_accumulate_keeps (amplitude : Z) (recv_speed : bool) (d : DecodeTag) :
  state (accumulate amplitude recv_speed d) = state d
  /\ max_len (accumulate amplitude recv_speed d) = max_len d
  /\ len (accumulate amplitude recv_speed d) = len d
  /\ output (accumulate amplitude recv_speed d) = output d.
Proof.
  unfold accumulate.
  destruct (posCount d =? 1); cbv zeta;
    match goal with |- context [if ?c then _ else _] => destruct c end;
    cbn; auto.
Qed.

Ltac tag_fields :=
  cbv beta iota zeta delta
      [fst snd
       state bitCount posCount lastBit shiftReg max_len output len sum1 sum2
       threshold_sof threshold_half previous_amplitude
       set_state set_bitCount set_posCount set_lastBit set_shiftReg set_output set_len
       set_sum1 set_sum2 set_threshold_sof set_threshold_half set_previous_amplitude
       resync].

Ltac tag_cases :=
  tag_fields;
  repeat (match goal with
          | |- context [if ?c then _ else _] => destruct c eqn:?
          end; tag_fields).

Ltac tag_in_range :=
  match goal with Q := _ |- _ => subst Q end;
  unfold tag_same_outside, len_in_range; tag_fields;
  split;
  [ split; [reflexivity|];
    intros j Hj;
    first [reflexivity
          | unfold store;
            match goal with
            | |- context [j =? ?i] => destruct (Z.eqb_spec j i); [lia|reflexivity]
            end]
  | intros E;
    first [discriminate E
          | split; [assumption|]; intros S;
            first [discriminate S
                  | repeat match goal with
                           | H : (_ >? _) = false |- _ =>
                               rewrite Z.gtb_ltb in H; apply Z.ltb_ge in H
                           end; lia]]].

(** One sample writes, if it writes, at an index from 0 to [max_len], and
    unless it ends the reception it leaves [len] in range. *)
Lemma Handle15693SamplesFromTag_in_range (amplitude : Z) (d : DecodeTag)
    (recv_speed : bool) :
  len_in_range d ->
  let r := Handle15693SamplesFromTag amplitude d recv_speed in
  tag_same_outside d (fst r) /\ (snd r = false -> len_in_range (fst r)).
Proof.
  destruct d as [st bc pc lb sr mx out ln s1 s2 ts th pa].
  unfold len_in_range. cbn [state max_len len]. intros (Hm & Hl).
  cbv zeta.
  set (Q := fun r : DecodeTag * bool =>
              tag_same_outside (mkDecodeTag st bc pc lb sr mx out ln s1 s2 ts th pa) (fst r)
              /\ (snd r = false -> len_in_range (fst r))).
  change (Q (Handle15693SamplesFromTag amplitude
               (mkDecodeTag st bc pc lb sr mx out ln s1 s2 ts th pa) recv_speed)).
  unfold Handle15693SamplesFromTag.
  destruct st; cbv zeta; cbn [state]; try specialize (Hl eq_refl).
  1-4: tag_cases; tag_in_range.
  all: match goal with
       | |- context [accumulate ?a ?s ?d0] =>
           pose proof (tag_accumulate_keeps a s d0) as (A1 & A2 & A3 & A4);
           set (d1 := accumulate a s d0) in *; clearbody d1;
           cbn [state max_len len output] in A1, A2, A3, A4;
           destruct d1 as [st1 bc1 pc1 lb1 sr1 mx1 out1 ln1 s11 s21 ts1 th1 pa1]
       end;
    cbn [state max_len len output] in *; subst;
    tag_cases; tag_in_range.
Qed.

Lemma tag_DecodeSamples_in_range (samples : list Z) (recv_speed : bool) (d : DecodeTag) :
  len_in_range d -> tag_same_outside d (fst (DecodeSamples samples recv_speed d)).
Proof.
  revert d. induction samples as [|a samples IH]; intros d H; cbn [DecodeSamples].
  - split; reflexivity.
  - destruct (Handle15693SamplesFromTag_in_range a d recv_speed H)
      as ((Hmax & Hout) & Hnext).
    destruct (Handle15693SamplesFromTag a d recv_speed) as [d' [|]]; cbn [fst snd] in *.
    + split; assumption.
    + destruct (IH d' (Hnext eq_refl)) as (Hmax' & Hout').
      split; [congruence|].
      intros j Hj. rewrite Hout' by (rewrite Hmax; exact Hj). apply Hout, Hj.
Qed.

(** Whatever the samples, a decoder started by [DecodeTagInit] writes no
    cell of the buffer outside the indices 0 to [max_len]. *)
Lemma tag_writes_in_range (samples : list Z) (recv_speed : bool) (out : buffer)
    (max_len : Z) :
  0 <= max_len ->
  forall j, j < 0 \/ max_len < j ->
    output (fst (DecodeSamples samples recv_speed (DecodeTagInit out max_len))) j = out j.
Proof.
  intros Hmax j Hj.
  destruct (tag_DecodeSamples_in_range samples recv_speed (DecodeTagInit out max_len))
    as (_ & Hout).
  { split; [exact Hmax|]. cbn. discriminate. }
  apply Hout. exact Hj.
Qed.

End Tag15693Facts.

(** ** Output capacity of the decoders *)

Module CapacityFacts.

(** C1.  Both decoders store a completed byte before they compare the
    byte count with the capacity, and compare with [>]: a frame one byte
    longer than the capacity has its last byte stored at the index equal
    to the capacity, one past the end of the caller's buffer.  With a
    capacity of 1 and a frame of two bytes, the reader-direction decoder
    stores [0x3C] at index 1 and goes back to unsynced without reporting a
    frame; the tag-direction decoder stores [0xBB] at index 1 and returns
    true with a length of 2, which its caller reports as overflow.  The
    same happens with the buffers the firmware passes: the 45 bytes of
    [cmd] in [SimTagIso15693] with a command of 46 bytes, and the 32 bytes
    of [resp] in [iclass.c] with a response of 33 bytes. *)
Theorem byte_stored_at_capacity :
  (let r := Reader15693.DecodeSamples
              (Reader15693.air 0 (Reader15693.CodeIso15693AsReader [0xA5; 0x3C]))
              (Reader15693.DecodeReaderInit (fun _ => 0) 1) in
   Reader15693.byteCountMax (fst r) = 1
   /\ Reader15693.output (fst r) 1 = 0x3C
   /\ Reader15693.byteCount (fst r) = 2
   /\ snd r = false)
  /\
  (let r := Tag15693.DecodeSamples
              (Tag15693.tag_sof ++ Tag15693.tag_byte 0xA5 ++ Tag15693.tag_byte 0xBB)
              true
              (Tag15693.DecodeTagInit (fun _ => 0) 1) in
   Tag15693.max_len (fst r) = 1
   /\ Tag15693.output (fst r) 1 = 0xBB
   /\ Tag15693.len (fst r) = 2
   /\ snd r = true)
  /\
  (let cmd := map Z.of_nat (seq 1 46) in
   let r4 := Reader15693.DecodeSamples
               (Reader15693.air 0 (Reader15693.CodeIso15693AsReader cmd))
               (Reader15693.DecodeReaderInit (fun _ => 0) 45) in
   Reader15693.output (fst r4) 45 = 46
   /\ Reader15693.byteCount (fst r4) = 46
   /\ snd r4 = false)
  /\
  (let response := map (fun k => 0xA0 + Z.of_nat k) (seq 0 33) in
   let r := Tag15693.DecodeSamples
              (Tag15693.tag_sof ++ flat_map Tag15693.tag_byte response)
              true
              (Tag15693.DecodeTagInit (fun _ => 0) 32) in
   Tag15693.output (fst r) 32 = 0xC0
   /\ Tag15693.len (fst r) = 33
   /\ snd r = true).
Proof. vm_compute. repeat split. Qed.

End CapacityFacts.

(** ** The frequency windows of the FSK decoder *)

Module TagFSK15693Facts.

Import TagFSK15693.

Lemma FREQ_IS_484_spec (f : Z) : FREQ_IS_484 f = true <-> 26 <= f <= 30.
Proof. unfold FREQ_IS_484. rewrite andb_true_iff. lia. Qed.

Lemma FREQ_IS_424_spec (f : Z) : FREQ_IS_424 f = true <-> 30 <= f <= 34.
Proof. unfold FREQ_IS_424. rewrite andb_true_iff. lia. Qed.

(** The sample value 30 passes both window tests. *)
Lemma windows_overlap_at_30 : FREQ_IS_484 30 = true /\ FREQ_IS_424 30 = true.
Proof. split; reflexivity. Qed.

Ltac fsk_cases :=
  repeat match goal with
         | |- context [if ?c then _ else _] => destruct c eqn:?
         end.

(** In every state the decoder does on the value 30 what it does on a
    value that only the 484 kHz window holds, or what it does on a value
    that only the 424 kHz window holds. *)
Lemma boundary_sample_follows_one_window (d : DecodeTagFSK) (recv_speed : bool)
    (f484 f424 : Z) :
  26 <= f484 <= 29 -> 31 <= f424 <= 34 ->
  Handle15693FSKSamplesFromTag 30 d recv_speed
  = Handle15693FSKSamplesFromTag f484 d recv_speed
  \/ Handle15693FSKSamplesFromTag 30 d recv_speed
     = Handle15693FSKSamplesFromTag f424 d recv_speed.
Proof.
  intros A B.
  assert (A1 : FREQ_IS_484 f484 = true) by (apply FREQ_IS_484_spec; lia).
  assert (A2 : FREQ_IS_424 f484 = false).
  { destruct (FREQ_IS_424 f484) eqn:E; [|reflexivity].
    apply FREQ_IS_424_spec in E. lia. }
  assert (B1 : FREQ_IS_484 f424 = false).
  { destruct (FREQ_IS_484 f424) eqn:E; [|reflexivity].
    apply FREQ_IS_484_spec in E. lia. }
  assert (B2 : FREQ_IS_424 f424 = true) by (apply FREQ_IS_424_spec; lia).
  unfold Handle15693FSKSamplesFromTag.
  rewrite A1, A2, B1, B2.
  change (FREQ_IS_484 30) with true. change (FREQ_IS_424 30) with true.
  destruct (state d); cbn [andb]; fsk_cases; auto.
Qed.

(** In the 484 kHz burst of the SOF the value 30 is one more sample of the
    burst while the count is below its maximum, and the first sample of
    the 424 kHz burst once the maximum is reached. *)
Lemma sof_484_boundary (d : DecodeTagFSK) (recv_speed : bool) :
  state d = STATE_FSK_SOF_484 ->
  Handle15693FSKSamplesFromTag 30 d recv_speed
  = Handle15693FSKSamplesFromTag (if MAX_COUNT (count d) recv_speed then 32 else 28)
                                 d recv_speed.
Proof.
  intros H. unfold Handle15693FSKSamplesFromTag. rewrite H.
  destruct (MAX_COUNT (count d) recv_speed); reflexivity.
Qed.

(** In the 424 kHz burst of the SOF it is the other way round. *)
Lemma sof_424_boundary (d : DecodeTagFSK) (recv_speed : bool) :
  state d = STATE_FSK_SOF_424 ->
  Handle15693FSKSamplesFromTag 30 d recv_speed
  = Handle15693FSKSamplesFromTag (if MAX_COUNT (count d) recv_speed then 28 else 32)
                                 d recv_speed.
Proof.
  intros H. unfold Handle15693FSKSamplesFromTag. rewrite H.
  destruct (MAX_COUNT (count d) recv_speed); reflexivity.
Qed.

(** C9, as amended.  The 484 kHz window is 26..30 and the 424 kHz window
    is 30..34: a sample value passes both tests exactly when it is 30, so
    every value other than 30 is taken for at most one subcarrier.  In
    every state the decoder handles the value 30 exactly as it handles a
    value of 26..29, or exactly as it handles a value of 31..34: which of
    the two follows from the order of its tests and from its count.  In the
    484 kHz burst of the SOF the value 30 is handled as 28 is while the
    count is below its maximum (it is one more sample of the burst), and
    as 32 is once the maximum is reached; in the 424 kHz burst of the SOF
    as 32 is while the count is below its maximum, and as 28 is after. *)
Theorem windows_overlap_only_at_30 :
  (forall f, FREQ_IS_484 f && FREQ_IS_424 f = true <-> f = 30)
  /\ (forall d recv_speed f484 f424,
        26 <= f484 <= 29 -> 31 <= f424 <= 34 ->
        Handle15693FSKSamplesFromTag 30 d recv_speed
        = Handle15693FSKSamplesFromTag f484 d recv_speed
        \/ Handle15693FSKSamplesFromTag 30 d recv_speed
           = Handle15693FSKSamplesFromTag f424 d recv_speed)
  /\ (forall d recv_speed,
        state d = STATE_FSK_SOF_484 ->
        Handle15693FSKSamplesFromTag 30 d recv_speed
        = Handle15693FSKSamplesFromTag
            (if MAX_COUNT (count d) recv_speed then 32 else 28) d recv_speed
        /\ (MAX_COUNT (count d) recv_speed = false ->
            Handle15693FSKSamplesFromTag 30 d recv_speed
            = (set_count d (u8 (count d + 1)), false)))
  /\ (forall d recv_speed,
        state d = STATE_FSK_SOF_424 ->
        Handle15693FSKSamplesFromTag 30 d recv_speed
        = Handle15693FSKSamplesFromTag
            (if MAX_COUNT (count d) recv_speed then 28 else 32) d recv_speed
        /\ (MAX_COUNT (count d) recv_speed = false ->
            Handle15693FSKSamplesFromTag 30 d recv_speed
            = (set_count d (u8 (count d + 1)), false))).
Proof.
  split; [|split; [|split]].
  - intros f. rewrite andb_true_iff, FREQ_IS_484_spec, FREQ_IS_424_spec. lia.
  - intros d sp f484 f424. apply boundary_sample_follows_one_window.
  - intros d sp Hst. split; [now apply sof_484_boundary|].
    intros Hmax. unfold Handle15693FSKSamplesFromTag.
    rewrite Hst, Hmax. reflexivity.
  - intros d sp Hst. split; [now apply sof_424_boundary|].
    intros Hmax. unfold Handle15693FSKSamplesFromTag.
    rewrite Hst, Hmax. reflexivity.
Qed.

Lemma windows_overlap_only_at_30_witness :
  let d := mkDecodeTagFSK STATE_FSK_SOF_484 LOGIC0_PART1 13 0 0 0 2052 (fun _ => 0) in
  (26 <= 28 <= 29 /\ 31 <= 32 <= 34)
  /\ (Handle15693FSKSamplesFromTag 30 d true = Handle15693FSKSamplesFromTag 28 d true
      \/ Handle15693FSKSamplesFromTag 30 d true = Handle15693FSKSamplesFromTag 32 d true).
Proof.
  cbv zeta. split; [lia|].
  apply (proj1 (proj2 windows_overlap_only_at_30)); lia.
Defined.

End TagFSK15693Facts.

(** ** The iCLASS dispatcher *)

Module IClassFacts.

Import ToSendBuffer IClass.

Lemma same_bytes_spec (n : nat) (a b : list Z) :
  same_bytes n a b = true <-> forall i, (i < n)%nat -> nth i a 0 = nth i b 0.
Proof.
  unfold same_bytes. rewrite forallb_forall. split.
  - intros H i Hi. apply Z.eqb_eq, H, in_seq. lia.
  - intros H i Hi. apply Z.eqb_eq, H. apply in_seq in Hi. lia.
Qed.

Lemma same_bytes_refl (n : nat) (a rest : list Z) :
  length a = n -> same_bytes n a (a ++ rest) = true.
Proof.
  intros H. apply same_bytes_spec. intros i Hi. now rewrite app_nth1 by lia.
Qed.

Lemma same_bytes_differ (n : nat) (a b rest : list Z) :
  length a = n -> length b = n -> a <> b -> same_bytes n a (b ++ rest) = false.
Proof.
  intros Ha Hb Hne. destruct (same_bytes n a (b ++ rest)) eqn:E; [|reflexivity].
  exfalso. apply Hne. rewrite same_bytes_spec in E.
  apply (nth_ext a b 0 0); [congruence|].
  intros i Hi. rewrite E by lia. apply app_nth1. lia.
Qed.

Lemma rotateCSN_length (csn : list Z) : length (rotateCSN csn) = 8%nat.
Proof. reflexivity. Qed.

Section Facts.

Variable X : External.

Lemma dispatch_select (c : Card) (s : Session X) (payload : list Z) :
  length payload = 8%nat ->
  chip_state X s = ACTIVATED \/ chip_state X s = SELECTED ->
  dispatch X c s (ICLASS_CMD_SELECT :: payload)
  = if same_bytes 8 payload (anticoll_data c)
    then (set_chip_state X s SELECTED, mkResponse (resp_csn c) (csn_data c))
    else (set_chip_state X s IDLE, no_response).
Proof.
  intros Hlen Hst.
  do 9 (destruct payload as [|? payload]; try discriminate Hlen).
  destruct s as [cs pg kc kd sel em dkd dkc dk cc rcc pm rmb ex].
  cbn [chip_state] in Hst.
  destruct Hst as [-> | ->]; reflexivity.
Qed.

(** C5.  From the Idle state of a fresh session, ActivateAll is answered
    by the bare SOF and leads to Activated; Identify is answered by the
    rotated CSN with its CRC and leaves the state Activated; Select with the
    rotated CSN is answered by the real CSN followed by its CRC and leads to
    Selected; Select with any other 8 bytes is not answered and leads back
    to Idle. *)
Theorem select_sequence (mode : SimulationMode) (emulator : buffer)
    (reader_mac_buf : option buffer) (stack_KC stack_KD : Z -> State X) :
  let start := doIClassSimulation_start X mode emulator reader_mac_buf
                                        stack_KC stack_KD in
  let c := fst start in
  let s0 := snd start in
  let csn := load emulator 0 8 in
  let s1 := set_chip_state X s0 ACTIVATED in
  let s2 := set_chip_state X s1 SELECTED in
  chip_state X s0 = IDLE
  /\ dispatch X c s0 [ICLASS_CMD_ACTALL] = (s1, mkResponse [0x1D] [])
  /\ dispatch X c s1 [ICLASS_CMD_READ_OR_IDENTIFY]
     = (s1, mkResponse (CodeIso15693AsTag (rotateCSN csn ++ crc_of X (rotateCSN csn)))
                       (rotateCSN csn ++ crc_of X (rotateCSN csn)))
  /\ dispatch X c s1 (ICLASS_CMD_SELECT :: rotateCSN csn)
     = (s2, mkResponse (CodeIso15693AsTag (csn ++ crc_of X csn)) (csn ++ crc_of X csn))
  /\ (forall payload,
        length payload = 8%nat -> payload <> rotateCSN csn ->
        dispatch X c s1 (ICLASS_CMD_SELECT :: payload)
        = (set_chip_state X s1 IDLE, no_response)).
Proof.
  cbv zeta.
  split; [reflexivity|]. split; [reflexivity|]. split; [reflexivity|].
  split.
  - rewrite dispatch_select by (reflexivity || (right; reflexivity) || (left; reflexivity)).
    change (anticoll_data (fst (doIClassSimulation_start X mode emulator reader_mac_buf
                                  stack_KC stack_KD)))
      with (rotateCSN (load emulator 0 8) ++ crc_of X (rotateCSN (load emulator 0 8))).
    rewrite same_bytes_refl by reflexivity. reflexivity.
  - intros payload Hlen Hne.
    rewrite dispatch_select by (assumption || (left; reflexivity)).
    change (anticoll_data (fst (doIClassSimulation_start X mode emulator reader_mac_buf
                                  stack_KC stack_KD)))
      with (rotateCSN (load emulator 0 8) ++ crc_of X (rotateCSN (load emulator 0 8))).
    now rewrite same_bytes_differ.
Qed.

(** C6, as amended.  With the default CSN [03 1f ec 8a f7 ff 12 e0] in plain
    CSN simulation mode, [0a] is answered by the bare SOF, [0c] by the
    rotated CSN with its CRC, [81] with the rotated CSN by the real CSN with
    its CRC, and the read request for block 1 is not answered: the read
    branch answers in reader-attack and in full simulation mode only.  In
    reader-attack mode the same four commands end with the configuration
    block and its CRC. *)
Theorem default_csn_scenario (emulator : buffer) (reader_mac_buf : option buffer)
    (stack_KC stack_KD : Z -> State X) :
  let frames := [[0x0a]; [0x0c]; 0x81 :: default_anticoll; [0x0c; 0x01; 0xfa; 0x22]] in
  let conf := [0x12; 0xFF; 0xFF; 0xFF; 0x7F; 0x1F; 0xFF; 0x3C] in
  let plain := SimulateIClass_CSN_DEFAULT X emulator stack_KC stack_KD in
  let attack := doIClassSimulation_start X ICLASS_SIM_MODE_EXIT_AFTER_MAC
                  (store_list emulator 0 default_csn) reader_mac_buf
                  stack_KC stack_KD in
  snd (doIClassSimulation_loop X (fst plain) (snd plain) frames)
  = [mkResponse [0x1D] [];
     generic (default_anticoll ++ crc_of X default_anticoll);
     generic (default_csn ++ crc_of X default_csn);
     no_response]
  /\
  snd (doIClassSimulation_loop X (fst attack) (snd attack) frames)
  = [mkResponse [0x1D] [];
     generic (default_anticoll ++ crc_of X default_anticoll);
     generic (default_csn ++ crc_of X default_csn);
     generic (conf ++ crc_of X conf)].
Proof.
  cbv zeta. split.
  - reflexivity.
  - destruct reader_mac_buf; reflexivity.
Qed.



(** An encoded response is never empty: it ends with the EOF. *)
Lemma CodeIso15693AsTag_nonempty (cmd : list Z) : CodeIso15693AsTag cmd <> [].
Proof.
  unfold CodeIso15693AsTag. cbv zeta. unfold put at 1. cbn [ToSend].
  intros H. apply app_eq_nil in H. destruct H as [_ H]. discriminate H.
Qed.




(** *** Where cipher states are derived *)















End Facts.

(** The CRC model reproduces the trailers that [iclass.c] hard-codes in
    its read requests [0c 01 fa 22], [0c 02 61 10] and [0c 05 de 64]. *)
Lemma crc_vectors :
  ComputeCrc14443_model CRC_ICLASS_model [0x01] = (0xfa, 0x22)
  /\ ComputeCrc14443_model CRC_ICLASS_model [0x02] = (0x61, 0x10)
  /\ ComputeCrc14443_model CRC_ICLASS_model [0x05] = (0xde, 0x64).
Proof. vm_compute. repeat split. Qed.

Lemma select_sequence_witness :
  let X := symbolic_cipher in
  let start := doIClassSimulation_start X ICLASS_SIM_MODE_CSN
                 (store_list (fun _ => 0) 0 default_csn) None
                 (fun _ => ([], [])) (fun _ => ([], [])) in
  let s1 := set_chip_state X (snd start) ACTIVATED in
  let payload := [0; 0; 0; 0; 0; 0; 0; 0] in
  (length payload = 8%nat
   /\ payload <> rotateCSN (load (store_list (fun _ => 0) 0 default_csn) 0 8))
  /\ dispatch X (fst start) s1 (ICLASS_CMD_SELECT :: payload)
     = (set_chip_state X s1 IDLE, no_response).
Proof.
  cbv zeta.
  assert (H : length [0; 0; 0; 0; 0; 0; 0; 0] = 8%nat
              /\ [0; 0; 0; 0; 0; 0; 0; 0]
                 <> rotateCSN (load (store_list (fun _ => 0) 0 default_csn) 0 8)).
  { split; [reflexivity|]. vm_compute. discriminate. }
  split; [exact H|].
  destruct H as [H1 H2].
  exact (proj2 (proj2 (proj2 (proj2
           (select_sequence symbolic_cipher ICLASS_SIM_MODE_CSN
              (store_list (fun _ => 0) 0 default_csn) None
              (fun _ => ([], [])) (fun _ => ([], []))))))
           [0; 0; 0; 0; 0; 0; 0; 0] H1 H2).
Defined.

(** The read request for block 1 is not answered in plain CSN simulation. *)
Lemma block_1_not_read_in_CSN_mode :
  let X := symbolic_cipher in
  let start := SimulateIClass_CSN_DEFAULT X (fun _ => 0)
                 (fun _ => ([], [])) (fun _ => ([], [])) in
  let replies :=
    snd (doIClassSimulation_loop X (fst start) (snd start)
           [[0x0a]; [0x0c]; 0x81 :: default_anticoll; [0x0c; 0x01; 0xfa; 0x22]]) in
  modulated_response (nth 3 replies no_response) = []
  /\ nth 3 replies no_response
     <> mkResponse (resp_conf (fst start)) (conf_block (fst start)).
Proof. vm_compute. split; [reflexivity|discriminate]. Qed.

(** C2.  PageSel stores the page byte of the frame in [current_page]
    without comparing it with [max_page]: on a card of 8 pages
    ([max_page] = 7), selected in full simulation mode, the frame
    [84 08 00 00] sets the current page to 8 and points [cipher_state] at
    [cipher_state_KD[8]], past the 8 entries of that array. *)
Theorem pagesel_leaves_page_range :
  let X := symbolic_cipher in
  let start := doIClassSimulation_start X ICLASS_SIM_MODE_FULL eight_pages None
                 (fun _ => ([], [])) (fun _ => ([], [])) in
  let s := fst (doIClassSimulation_loop X (fst start) (snd start)
                  [[0x0a]; 0x81 :: default_anticoll; [0x84; 0x08; 0x00; 0x00]]) in
  max_page (fst start) = 7
  /\ current_page X (snd start) = 0
  /\ chip_state X s = SELECTED
  /\ current_page X s = 8
  /\ cipher_state X s = (KD, 8).
Proof. vm_compute. repeat split. Qed.

(** The store [cmd[cmd_len] = 0] leaves the bytes of the frame as they
    are. *)
Lemma frame_kept (cmd : buffer) (cmd_len : Z) (n : nat) :
  Z.of_nat n <= cmd_len ->
  load (store cmd cmd_len 0) 0 n = load cmd 0 n.
Proof.
  intros H. apply load_ext. intros i Hi. apply store_other. lia.
Qed.


(** A frame that passes both tests is interpreted; the array holds the
    zero stored behind the frame then too. *)
Lemma SimTagIso15693_interprets (TagSession : Type) (Iso15693Crc : list Z -> Z)
    (interpret : TagSession -> buffer -> Z -> TagSession * list Z)
    (st : TagSession) (cmd : buffer) (cmd_len : Z) :
  3 < cmd_len ->
  Z.land (Iso15693Crc (load cmd 0 (Z.to_nat (cmd_len - 2)))) 0xff
  = cmd (cmd_len - 2) ->
  Z.shiftr (Iso15693Crc (load cmd 0 (Z.to_nat (cmd_len - 2)))) 8
  = cmd (cmd_len - 1) ->
  Sim15693.SimTagIso15693_turn TagSession Iso15693Crc interpret st cmd cmd_len
  = (fst (interpret st (store cmd cmd_len 0) cmd_len), store cmd cmd_len 0,
     snd (interpret st (store cmd cmd_len 0) cmd_len)).
Proof.
  intros Hlen H1 H2. unfold Sim15693.SimTagIso15693_turn. cbv zeta.
  destruct (Z.leb_spec cmd_len 3) as [|_]; [lia|].
  rewrite frame_kept by lia.
  rewrite !store_other by lia.
  rewrite H1, H2, !Z.eqb_refl. cbn [negb orb].
  destruct (interpret st (store cmd cmd_len 0) cmd_len). reflexivity.
Qed.







(** *** [rotateCSN] *)

(** One byte of the rotated CSN, as a sum. *)
Lemma rotated_byte (a a' : Z) :
  is_byte a -> is_byte a' ->
  u8 (Z.lor (Z.shiftr a 3) (Z.shiftl a' 5)) = a / 8 + (a' mod 8) * 32.
Proof.
  intros Ha Ha'. apply Z.eqb_eq.
  pose proof (Reader15693Facts.byte_check
    (fun a => forallb (fun a' => u8 (Z.lor (Z.shiftr a 3) (Z.shiftl a' 5))
                                 =? a / 8 + (a' mod 8) * 32)
                      (map Z.of_nat (seq 0 256)))
    ltac:(vm_compute; reflexivity) a Ha) as H.
  cbv beta in H.
  exact (Reader15693Facts.byte_check _ H a' Ha').
Qed.

(** One byte of the inverse rotation, as a sum. *)
Lemma unrotated_byte (r r' : Z) :
  is_byte r -> is_byte r' ->
  u8 (Z.lor (Z.shiftl r 3) (Z.shiftr r' 5)) = (r mod 32) * 8 + r' / 32.
Proof.
  intros Hr Hr'. apply Z.eqb_eq.
  pose proof (Reader15693Facts.byte_check
    (fun r => forallb (fun r' => u8 (Z.lor (Z.shiftl r 3) (Z.shiftr r' 5))
                                 =? (r mod 32) * 8 + r' / 32)
                      (map Z.of_nat (seq 0 256)))
    ltac:(vm_compute; reflexivity) r Hr) as H.
  cbv beta in H.
  exact (Reader15693Facts.byte_check _ H r' Hr').
Qed.

Lemma rotated_is_byte (a a' : Z) : is_byte (u8 (Z.lor (Z.shiftr a 3) (Z.shiftl a' 5))).
Proof. unfold is_byte, u8. apply Z.mod_pos_bound. lia. Qed.

Lemma rotateCSN_bytes (csn : list Z) : Forall is_byte (rotateCSN csn).
Proof.
  unfold rotateCSN. apply Forall_forall. intros x Hx.
  apply in_map_iff in Hx. destruct Hx as (i & <- & _). apply rotated_is_byte.
Qed.

Lemma unrotateCSN_bytes (r : list Z) : Forall is_byte (unrotateCSN r).
Proof.
  unfold unrotateCSN. apply Forall_forall. intros x Hx.
  apply in_map_iff in Hx. destruct Hx as (i & <- & _).
  unfold is_byte, u8. apply Z.mod_pos_bound. lia.
Qed.

Ltac eight_bytes l H :=
  do 9 (destruct l as [|? l]; try discriminate H); clear H.

Lemma unrotate_rotate (csn : list Z) :
  length csn = 8%nat -> Forall is_byte csn -> unrotateCSN (rotateCSN csn) = csn.
Proof.
  intros Hlen Hb. eight_bytes csn Hlen.
  repeat match goal with
         | H : Forall _ (_ :: _) |- _ => inversion H; subst; clear H
         | H : Forall _ [] |- _ => clear H
         end.
  unfold unrotateCSN, rotateCSN.
  cbn [seq map nth Nat.modulo Nat.add Nat.divmod fst snd Nat.sub].
  rewrite !unrotated_byte by apply rotated_is_byte.
  rewrite !rotated_byte by assumption.
  unfold is_byte in *. repeat f_equal; Z.div_mod_to_equations; lia.
Qed.

Lemma rotate_unrotate (r : list Z) :
  length r = 8%nat -> Forall is_byte r -> rotateCSN (unrotateCSN r) = r.
Proof.
  intros Hlen Hb. eight_bytes r Hlen.
  repeat match goal with
         | H : Forall _ (_ :: _) |- _ => inversion H; subst; clear H
         | H : Forall _ [] |- _ => clear H
         end.
  unfold unrotateCSN, rotateCSN.
  cbn [seq map nth Nat.modulo Nat.add Nat.divmod fst snd Nat.sub].
  rewrite !rotated_byte by (unfold is_byte, u8; apply Z.mod_pos_bound; lia).
  rewrite !unrotated_byte by assumption.
  unfold is_byte in *. repeat f_equal; Z.div_mod_to_equations; lia.
Qed.

(** The rotated CSN is the CSN, read as a 64-bit number with the first
    byte least significant, rotated right by 3 bits. *)
Lemma rotate_is_rotation (csn : list Z) :
  length csn = 8%nat -> Forall is_byte csn ->
  value_le (rotateCSN csn) = value_le csn / 8 + (value_le csn mod 8) * 2 ^ 61.
Proof.
  intros Hlen Hb. eight_bytes csn Hlen.
  repeat match goal with
         | H : Forall _ (_ :: _) |- _ => inversion H; subst; clear H
         | H : Forall _ [] |- _ => clear H
         end.
  unfold rotateCSN.
  cbn [seq map nth Nat.modulo Nat.add Nat.divmod fst snd Nat.sub value_le].
  rewrite !rotated_byte by assumption.
  unfold is_byte in *. change (2 ^ 61) with 2305843009213693952.
  Z.div_mod_to_equations. lia.
Qed.

Lemma rotateCSN_injective (c1 c2 : list Z) :
  length c1 = 8%nat -> Forall is_byte c1 ->
  length c2 = 8%nat -> Forall is_byte c2 ->
  rotateCSN c1 = rotateCSN c2 -> c1 = c2.
Proof.
  intros L1 B1 L2 B2 E.
  rewrite <- (unrotate_rotate c1 L1 B1), <- (unrotate_rotate c2 L2 B2).
  now rewrite E.
Qed.

(** C10.  [rotateCSN] makes output byte [i] from the upper five bits of
    byte [i] and the lower three bits of byte [i + 1 mod 8]: the CSN, read
    as a 64-bit number, rotated by 3 bit positions.  On strings of 8 bytes
    it has the inverse [unrotateCSN], so distinct CSNs have distinct
    rotated forms, and a session answers the Select that carries the
    rotated form of a CSN exactly when that CSN is the emulated one. *)
Theorem rotateCSN_identifies_card (X : External) :
  (forall csn i,
     (i < 8)%nat ->
     nth i (rotateCSN csn) 0
     = u8 (Z.lor (Z.shiftr (nth i csn 0) 3)
                 (Z.shiftl (nth ((i + 1) mod 8) csn 0) 5)))
  /\ (forall csn,
        length csn = 8%nat -> Forall is_byte csn ->
        value_le (rotateCSN csn) = value_le csn / 8 + (value_le csn mod 8) * 2 ^ 61
        /\ length (rotateCSN csn) = 8%nat /\ Forall is_byte (rotateCSN csn)
        /\ length (unrotateCSN csn) = 8%nat /\ Forall is_byte (unrotateCSN csn)
        /\ unrotateCSN (rotateCSN csn) = csn
        /\ rotateCSN (unrotateCSN csn) = csn)
  /\ (forall c1 c2,
        length c1 = 8%nat -> Forall is_byte c1 ->
        length c2 = 8%nat -> Forall is_byte c2 ->
        rotateCSN c1 = rotateCSN c2 -> c1 = c2)
  /\ (forall mode emulator reader_mac_buf stack_KC stack_KD s csn,
        let c := fst (doIClassSimulation_start X mode emulator reader_mac_buf
                                               stack_KC stack_KD) in
        chip_state X s = ACTIVATED \/ chip_state X s = SELECTED ->
        Forall is_byte (load emulator 0 8) ->
        length csn = 8%nat -> Forall is_byte csn ->
        (modulated_response
           (snd (dispatch X c s (ICLASS_CMD_SELECT :: rotateCSN csn))) <> []
         <-> csn = load emulator 0 8)).
Proof.
  split; [|split; [|split]].
  - intros csn i Hi.
    do 8 (destruct i as [|i]; [reflexivity|]). lia.
  - intros csn Hlen Hb.
    split; [now apply rotate_is_rotation|].
    split; [reflexivity|]. split; [apply rotateCSN_bytes|].
    split; [reflexivity|]. split; [apply unrotateCSN_bytes|].
    split; [now apply unrotate_rotate|now apply rotate_unrotate].
  - exact rotateCSN_injective.
  - intros mode emulator mac kc kd s csn c Hst Hem Hlen Hb.
    rewrite (dispatch_select X c s (rotateCSN csn) eq_refl Hst).
    change (anticoll_data c)
      with (rotateCSN (load emulator 0 8) ++ crc_of X (rotateCSN (load emulator 0 8))).
    split.
    + intros Hresp.
      destruct (list_eq_dec Z.eq_dec csn (load emulator 0 8)) as [E|Hne]; [exact E|].
      exfalso. apply Hresp.
      rewrite same_bytes_differ; [reflexivity|reflexivity|reflexivity|].
      intros E. apply Hne.
      now apply rotateCSN_injective.
    + intros ->. rewrite same_bytes_refl by reflexivity.
      cbn [snd modulated_response]. apply CodeIso15693AsTag_nonempty.
Qed.

Lemma rotateCSN_identifies_card_witness :
  (length default_csn = 8%nat /\ Forall is_byte default_csn)
  /\ unrotateCSN (rotateCSN default_csn) = default_csn.
Proof.
  assert (H : length default_csn = 8%nat /\ Forall is_byte default_csn).
  { split; [reflexivity|]. repeat constructor; unfold is_byte; lia. }
  split; [exact H|]. destruct H as [H1 H2].
  exact (proj1 (proj2 (proj2 (proj2 (proj2 (proj2
           (proj1 (proj2 (rotateCSN_identifies_card symbolic_cipher))
                  default_csn H1 H2))))))).
Defined.

End IClassFacts.
